(** * ai-cv-screener: the CV scoring pipeline

    A shallow embedding of the scoring pipeline of the repository
    (core/cv_analyzer.py, core/cv_processor.py, utils/helpers.py,
    constants/constants.py, features/analysis.py) and the properties of
    its specification.

    Conventions of the embedding.
    - A Python [float] is an exact rational ([Q]): sums and products carry
      no rounding error, and the IEEE values inf and nan are outside the
      model.  [round(x, 1)] is rounding to the nearest tenth, ties to even.
    - A Python [str] is a [string] of 8-bit characters; case mapping,
      whitespace and alphabetic tests are the ASCII ones.
    - A Python [dict] with string keys is a [gmap string value].
    - A raised exception is the [None] of an option, or the [Raise] of a
      result type where the exception's message matters. *)

From Stdlib Require Import ZArith QArith Qround Lia Lqa.
From Stdlib Require Import Strings.String Strings.Ascii Lists.List.
From Stdlib Require Import Sorting.Permutation Sorting.Sorted.
From Stdlib Require Import Numbers.DecimalString.
From Stdlib Require Floats.
From stdpp Require Import base option gmap strings list.
Import ListNotations.

Local Open Scope string_scope.

(** ** Python values *)

(** What [json.loads] can produce, and what the scorer stores in its
    result dictionaries. *)
#[local] Unset Elimination Schemes.
Inductive value : Type :=
| VNone
| VBool (b : bool)
| VNum (q : Q)
| VStr (s : string)
| VList (l : list value)
| VDict (l : list (string * value)).
#[local] Set Elimination Schemes.

(** ** Python numeric builtins *)

Module Py.

Definition Qltb (x y : Q) : bool := negb (Qle_bool y x).

(** [min(a, b)]: the first argument unless the second is strictly less. *)
Definition min (a b : Q) : Q := if Qltb b a then b else a.

(** [max(a, b)]: the first argument unless the second is strictly greater. *)
Definition max (a b : Q) : Q := if Qltb a b then b else a.

(** Nearest integer, ties to the even one. *)
Definition round_half_even (x : Q) : Z :=
  let f := Qfloor x in
  match (x - inject_Z f ?= 1 # 2)%Q with
  | Lt => f
  | Gt => (f + 1)%Z
  | Eq => if Z.even f then f else (f + 1)%Z
  end.

(** [round(x, 1)]. *)
Definition round1 (x : Q) : Q := Qred (round_half_even (x * 10) # 10).

(** [str(n)] of a non-negative int. *)
Definition str_of_nat (n : nat) : string := NilEmpty.string_of_uint (Nat.to_uint n).

End Py.

(** ** Python string builtins (ASCII) *)

Module PyStr.

Definition nl : ascii := "010"%char.

(** The double-quote character, as a one-character string. *)
Definition dq : string := String "034"%char EmptyString.

(** The lines of a multi-line literal, joined by newlines. *)
Fixpoint join_lines (ls : list string) : string :=
  match ls with
  | [] => EmptyString
  | [l] => l
  | l :: ls' => l ++ String nl (join_lines ls')
  end.

(** [c.isspace()]. *)
Definition is_space (c : ascii) : bool :=
  let n := nat_of_ascii c in
  ((9 <=? n)%nat && (n <=? 13)%nat) || ((28 <=? n)%nat && (n <=? 32)%nat).

(** [c.isalpha()]. *)
Definition is_alpha (c : ascii) : bool :=
  let n := nat_of_ascii c in
  ((65 <=? n)%nat && (n <=? 90)%nat) || ((97 <=? n)%nat && (n <=? 122)%nat).

Definition lower_char (c : ascii) : ascii :=
  let n := nat_of_ascii c in
  if (65 <=? n)%nat && (n <=? 90)%nat then ascii_of_nat (n + 32) else c.

Definition upper_char (c : ascii) : ascii :=
  let n := nat_of_ascii c in
  if (97 <=? n)%nat && (n <=? 122)%nat then ascii_of_nat (n - 32) else c.

Fixpoint map_chars (f : ascii -> ascii) (s : string) : string :=
  match s with
  | EmptyString => EmptyString
  | String c s' => String (f c) (map_chars f s')
  end.

(** [s.lower()] and [s.upper()]. *)
Definition lower (s : string) : string := map_chars lower_char s.
Definition upper (s : string) : string := map_chars upper_char s.

Definition is_empty (s : string) : bool :=
  match s with EmptyString => true | String _ _ => false end.

Fixpoint lstrip (s : string) : string :=
  match s with
  | EmptyString => EmptyString
  | String c s' => if is_space c then lstrip s' else s
  end.

Fixpoint rstrip (s : string) : string :=
  match s with
  | EmptyString => EmptyString
  | String c s' =>
      let r := rstrip s' in
      if is_space c && is_empty r then EmptyString else String c r
  end.

(** [s.strip()]. *)
Definition strip (s : string) : string := rstrip (lstrip s).

(** [s.split(sep)] for a one-character separator: never an empty list. *)
Fixpoint split_char (sep : ascii) (s : string) : list string :=
  match s with
  | EmptyString => [EmptyString]
  | String c s' =>
      let r := split_char sep s' in
      if Ascii.eqb c sep then EmptyString :: r
      else match r with
           | h :: t => String c h :: t
           | [] => [String c EmptyString]
           end
  end.

(** The word being read and the words after it. *)
Fixpoint split_ws_aux (s : string) : string * list string :=
  match s with
  | EmptyString => (EmptyString, [])
  | String c s' =>
      let '(w, ws) := split_ws_aux s' in
      if is_space c then (EmptyString, if is_empty w then ws else w :: ws)
      else (String c w, ws)
  end.

(** [s.split()]: the maximal runs of non-whitespace characters. *)
Definition split_ws (s : string) : list string :=
  let '(w, ws) := split_ws_aux s in
  if is_empty w then ws else w :: ws.

(** [s.replace(c, '')] for a one-character [c]. *)
Fixpoint remove_char (c : ascii) (s : string) : string :=
  match s with
  | EmptyString => EmptyString
  | String c' s' =>
      if Ascii.eqb c' c then remove_char c s' else String c' (remove_char c s')
  end.

Fixpoint all_chars (p : ascii -> bool) (s : string) : bool :=
  match s with
  | EmptyString => true
  | String c s' => p c && all_chars p s'
  end.

(** [s.isalpha()]: at least one character, all of them alphabetic. *)
Definition isalpha (s : string) : bool := negb (is_empty s) && all_chars is_alpha s.

Fixpoint starts_with (p s : string) : bool :=
  match p, s with
  | EmptyString, _ => true
  | String a p', String b s' => Ascii.eqb a b && starts_with p' s'
  | String _ _, EmptyString => false
  end.

(** [needle in hay]. *)
Fixpoint contains (needle hay : string) : bool :=
  starts_with needle hay ||
  match hay with
  | EmptyString => false
  | String _ hay' => contains needle hay'
  end.

(** [x in xs] for a list of strings. *)
Definition in_list (x : string) (xs : list string) : bool :=
  existsb (String.eqb x) xs.

(** The suffix of [s] that starts at its first [c]. *)
Fixpoint from_first (c : ascii) (s : string) : option string :=
  match s with
  | EmptyString => None
  | String c' s' => if Ascii.eqb c' c then Some s else from_first c s'
  end.

(** The prefix of [s] that ends at its last [c]. *)
Fixpoint upto_last (c : ascii) (s : string) : option string :=
  match s with
  | EmptyString => None
  | String c' s' =>
      match upto_last c s' with
      | Some p => Some (String c' p)
      | None => if Ascii.eqb c' c then Some (String c' EmptyString) else None
      end
  end.

(** [re.search(r'\{.*\}', s, re.DOTALL)]: the match text, if any.  The
    leftmost match starts at the first opening brace, and the greedy
    [.*] runs to the last closing brace after it. *)
Definition search_braces (s : string) : option string :=
  match from_first "{"%char s with
  | Some (String c rest) =>
      match upto_last "}"%char rest with
      | Some p => Some (String c p)
      | None => None
      end
  | _ => None
  end.

(** One element of a parsed format string. *)
Inductive piece : Type :=
| Lit (c : ascii)
| Field (name : string).

(** The parse of a [str.format] template: doubled braces are literal
    braces, [{name}] is a replacement field; [None] when the template is
    malformed (ValueError).  [field] is the name being read, if inside
    one. *)
Fixpoint parse_format (t : string) (field : option string) : option (list piece) :=
  match field with
  | Some name =>
      match t with
      | EmptyString => None
      | String c t' =>
          if Ascii.eqb c "}"%char then
            ps ← parse_format t' None; Some (Field name :: ps)
          else parse_format t' (Some (name ++ String c EmptyString))
      end
  | None =>
      match t with
      | EmptyString => Some []
      | String c t' =>
          if Ascii.eqb c "{"%char then
            match t' with
            | String c' t'' =>
                if Ascii.eqb c' "{"%char then
                  ps ← parse_format t'' None; Some (Lit c :: ps)
                else parse_format t' (Some EmptyString)
            | EmptyString => None
            end
          else if Ascii.eqb c "}"%char then
            match t' with
            | String c' t'' =>
                if Ascii.eqb c' "}"%char then
                  ps ← parse_format t'' None; Some (Lit c :: ps)
                else None
            | EmptyString => None
            end
          else ps ← parse_format t' None; Some (Lit c :: ps)
      end
  end.

(** Filling the fields from the keyword arguments; [None] for a field
    that has no argument (KeyError). *)
Fixpoint render (ps : list piece) (kwargs : string -> option string) : option string :=
  match ps with
  | [] => Some EmptyString
  | Lit c :: ps' => r ← render ps' kwargs; Some (String c r)
  | Field name :: ps' =>
      v ← kwargs name; r ← render ps' kwargs; Some (v ++ r)
  end.

(** [template.format] with keyword arguments. *)
Definition format (template : string) (kwargs : string -> option string) : option string :=
  ps ← parse_format template None; render ps kwargs.

End PyStr.
(** ** Exceptions and dictionaries *)

(** An exception is known to this code only through [str(e)]. *)
Record exn : Type := Exception { str : string }.

Inductive result (A : Type) : Type :=
| Ok (a : A)
| Raise (e : exn).
Arguments Ok {A} a.
Arguments Raise {A} e.

(** [{k1: v1, ..., kn: vn}]: a later binding of a key replaces an earlier one. *)
Definition dict_literal (l : list (string * value)) : gmap string value :=
  fold_left (fun m kv => <[kv.1 := kv.2]> m) l ∅.

(** [{**a, **b}]: the bindings of [b] replace those of [a]. *)
Definition dict_merge (a b : gmap string value) : gmap string value := b ∪ a.

(** [d.get(k, dflt)]. *)
Definition get (d : gmap string value) (k : string) (dflt : value) : value :=
  default dflt (d !! k).

(** ** constants/constants.py *)

Import PyStr.

(** [SCORING_PROMPT], one list element per line of the literal. *)
Definition SCORING_PROMPT : string :=
  join_lines
  [ "Act as an expert HR AI specialized in CV analysis.";
    EmptyString;
    "Job Description:";
    "{job_description}";
    EmptyString;
    "CANDIDATE #{candidate_number} CV:";
    "{cv_content}";
    EmptyString;
    "Analyze the CV against the Job Description using the following logic:";
    EmptyString;
    "1. **Filter Requirements**: Focus ONLY on professional qualifications and competencies. IGNORE availability, location, salary, and notice period.";
    EmptyString;
    "2. **Evaluation Logic**:";
    "   - **Trajectory**: Assess growth via title changes (Junior -> Senior) or Role Expansion (increased scope, budget, mentorship) if the title is static >2 years.";
    "   - **Impact**: Prioritize " ++ dq ++ "Achievements" ++ dq ++ " (quantifiable metrics, %, $) over passive " ++ dq ++ "Responsibilities." ++ dq;
    "   - **Validation**: Verify listed skills exist within the " ++ dq ++ "Work History" ++ dq ++ " context.";
    EmptyString;
    "3. **Scoring Instructions**:";
    "   - Score each category on a **precise 0-100 scale**.";
    "   - **Use specific integers** (e.g., 26, 51, 87) based on exact merit. **DO NOT** default to round numbers (20, 50, 90).";
    "   - **Experience**: Relevance, trajectory, and tenure. Deduct for unjustified gaps >6mo or excessive job hopping.";
    "   - **Impact**: Quantifiable results vs. generic duties (0 if no metrics).";
    "   - **Skills**: Hard/soft skills validated by context.";
    "   - **Education**: Degree relevance (allow industry equivalents).";
    "   - **Extras**: Certs, awards, languages.";
    EmptyString;
    "4. **Output**:";
    "   - Return ONLY the JSON below.";
    "   - Do not mention formatting/design.";
    "   - Use 'Candidate #{candidate_number}' in text, not the name.";
    EmptyString;
    "{{";
    "    " ++ dq ++ "experience_score" ++ dq ++ ": <0-100>,";
    "    " ++ dq ++ "experience_reason" ++ dq ++ ": " ++ dq ++ "<Analysis of relevance, trajectory, and tenure>" ++ dq ++ ",";
    "    " ++ dq ++ "impact_score" ++ dq ++ ": <0-100>,";
    "    " ++ dq ++ "impact_reason" ++ dq ++ ": " ++ dq ++ "<Analysis of quantifiable achievements vs duties>" ++ dq ++ ",";
    "    " ++ dq ++ "skills_score" ++ dq ++ ": <0-100>,";
    "    " ++ dq ++ "skills_reason" ++ dq ++ ": " ++ dq ++ "<Analysis of context-validated skills>" ++ dq ++ ",";
    "    " ++ dq ++ "education_score" ++ dq ++ ": <0-100>,";
    "    " ++ dq ++ "education_reason" ++ dq ++ ": " ++ dq ++ "<Analysis of degree relevance>" ++ dq ++ ",";
    "    " ++ dq ++ "certs_extras_score" ++ dq ++ ": <0-100>,";
    "    " ++ dq ++ "certs_extras_reason" ++ dq ++ ": " ++ dq ++ "<Analysis of certifications/extras>" ++ dq ++ ",";
    "    " ++ dq ++ "red_flags" ++ dq ++ ": [";
    "        " ++ dq ++ "List gaps >6mo, frequent hops, or skill anomalies. Empty if none." ++ dq;
    "    ],";
    "    " ++ dq ++ "strengths" ++ dq ++ ": [";
    "        " ++ dq ++ "Point 1" ++ dq ++ ",";
    "        " ++ dq ++ "Point 2" ++ dq ++ ",";
    "        " ++ dq ++ "Point 3" ++ dq;
    "    ],";
    "    " ++ dq ++ "weaknesses" ++ dq ++ ": [";
    "        " ++ dq ++ "Point 1" ++ dq ++ ",";
    "        " ++ dq ++ "Point 2" ++ dq;
    "    ],";
    "    " ++ dq ++ "summary" ++ dq ++ ": " ++ dq ++ "<2-3 sentence assessment for Candidate #{candidate_number}>" ++ dq;
    "}}" ].

Definition WEIGHTS : gmap string Q :=
  <["experience" := 3 # 10]>
  (<["impact" := 2 # 10]>
  (<["skills" := 2 # 10]>
  (<["education" := 2 # 10]>
  (<["certs_extras" := 1 # 10]> ∅)))).

Definition MAX_RETRIES : nat := 3.
Definition INITIAL_RETRY_DELAY : Z := 2.
Definition MAX_RETRY_DELAY : Z := 30.

(** ** The world the pipeline runs in *)

(** The prompts sent to the LLM so far and the delays slept so far, each
    in order. *)
Record world : Type := { calls : list string; slept : list Z }.

(** A computation that reads and changes the world and returns or raises. *)
Definition M (A : Type) : Type := world -> result A * world.

(** [time.sleep(delay)]. *)
Definition sleep (delay : Z) (w : world) : world :=
  {| calls := calls w; slept := slept w ++ [delay] |}.

(** ** utils/helpers.py: retry with exponential backoff *)

(** The test of the error message for a rate limit. *)
Definition is_rate_limit (error_msg : string) : bool :=
  contains "rate limit" error_msg || contains "quota" error_msg
  || contains "429" error_msg.

Definition max_retries_message (max_retries : nat) (e : exn) : string :=
  "Max retries (" ++ Py.str_of_nat max_retries ++ ") reached. Rate limit error: "
  ++ str e.

(** What [raise last_exception] raises when no exception was recorded. *)
Definition raise_none : exn :=
  Exception "exceptions must derive from BaseException".

(** The [for attempt in range(max_retries)] loop of [wrapper], from
    iteration [attempt] on, with [remaining] iterations left. *)
Fixpoint retry_loop {A : Type} (max_retries : nat) (max_delay : Z) (func : M A)
    (remaining attempt : nat) (delay : Z) (last_exception : option exn) : M A :=
  fun w =>
  match remaining with
  | O => (Raise (default raise_none last_exception), w)
  | S remaining' =>
      match func w with
      | (Ok a, w') => (Ok a, w')
      | (Raise e, w') =>
          let error_msg := lower (str e) in
          if is_rate_limit error_msg then
            if (Z.of_nat attempt <? Z.of_nat max_retries - 1)%Z then
              retry_loop max_retries max_delay func remaining' (S attempt)
                (Z.min (delay * 2) max_delay) (Some e) (sleep delay w')
            else (Raise (Exception (max_retries_message max_retries e)), w')
          else (Raise e, w')
      end
  end.

(** The decorated function. *)
Definition retry_with_exponential_backoff {A : Type}
    (max_retries : nat) (initial_delay max_delay : Z) (func : M A) : M A :=
  retry_loop max_retries max_delay func max_retries 0 initial_delay None.

(** [list.sort(key=..., reverse=True)]: descending by key, and stable:
    elements with equal keys keep their order. *)
Section Sort.
Context {A : Type} (key : A -> Q).

Fixpoint insert_desc (x : A) (l : list A) : list A :=
  match l with
  | [] => [x]
  | y :: l' => if Py.Qltb (key x) (key y) then y :: insert_desc x l' else x :: l
  end.

Fixpoint sort_desc (l : list A) : list A :=
  match l with
  | [] => []
  | x :: l' => insert_desc x (sort_desc l')
  end.

End Sort.

(** ** core/cv_analyzer.py: the weighted score *)

Section CVAnalyzer.

(** [float(s)] for a str [s]; [None] when it raises ValueError. *)
Variable float_of_str : string -> option Q.

(** [float(v)]; [None] when it raises (TypeError or ValueError). *)
Definition float (v : value) : option Q :=
  match v with
  | VNum q => Some q
  | VBool b => Some (if b then 1 else 0)%Q
  | VStr s => float_of_str s
  | VNone | VList _ | VDict _ => None
  end.

(** The tier chosen by the if-chain on [total_score]. *)
Definition recommendation_of (total_score : Q) : string :=
  if Qle_bool 80 total_score then "STRONGLY RECOMMEND"
  else if Qle_bool 60 total_score then "RECOMMEND"
  else if Qle_bool 40 total_score then "CONSIDER"
  else "REJECT".

(** The [try] block of [calculate_weighted_score]; [None] when a
    statement of it raises. *)
Definition weighted_try (llm_scores : gmap string value) : option (gmap string value) :=
  experience_raw ← float (get llm_scores "experience_score" (VNum 50));
  impact_raw ← float (get llm_scores "impact_score" (VNum 50));
  skills_raw ← float (get llm_scores "skills_score" (VNum 50));
  education_raw ← float (get llm_scores "education_score" (VNum 50));
  certs_raw ← float (get llm_scores "certs_extras_score" (VNum 50));
  let experience_raw := Py.max 0 (Py.min 100 experience_raw) in
  let impact_raw := Py.max 0 (Py.min 100 impact_raw) in
  let skills_raw := Py.max 0 (Py.min 100 skills_raw) in
  let education_raw := Py.max 0 (Py.min 100 education_raw) in
  let certs_raw := Py.max 0 (Py.min 100 certs_raw) in
  w_experience ← WEIGHTS !! "experience";
  let experience_weighted := (experience_raw * w_experience)%Q in
  w_impact ← WEIGHTS !! "impact";
  let impact_weighted := (impact_raw * w_impact)%Q in
  w_skills ← WEIGHTS !! "skills";
  let skills_weighted := (skills_raw * w_skills)%Q in
  w_education ← WEIGHTS !! "education";
  let education_weighted := (education_raw * w_education)%Q in
  w_certs ← WEIGHTS !! "certs_extras";
  let certs_weighted := (certs_raw * w_certs)%Q in
  let total_score :=
    (experience_weighted + impact_weighted + skills_weighted
     + education_weighted + certs_weighted)%Q in
  let recommendation := recommendation_of total_score in
  Some (dict_literal
    [ ("experience_score", VNum (Py.round1 experience_weighted));
      ("impact_score", VNum (Py.round1 impact_weighted));
      ("skills_score", VNum (Py.round1 skills_weighted));
      ("education_score", VNum (Py.round1 education_weighted));
      ("certs_extras_score", VNum (Py.round1 certs_weighted));
      ("score", VNum (Py.round1 total_score));
      ("recommendation", VStr recommendation);
      ("experience_score_raw", VNum (Py.round1 experience_raw));
      ("impact_score_raw", VNum (Py.round1 impact_raw));
      ("skills_score_raw", VNum (Py.round1 skills_raw));
      ("education_score_raw", VNum (Py.round1 education_raw));
      ("certs_extras_score_raw", VNum (Py.round1 certs_raw)) ]).

(** The dictionary of the [except] block. *)
Definition default_scores : gmap string value :=
  dict_literal
    [ ("experience_score", VNum 15);
      ("impact_score", VNum 10);
      ("skills_score", VNum 10);
      ("education_score", VNum 10);
      ("certs_extras_score", VNum 5);
      ("score", VNum 50);
      ("recommendation", VStr "CONSIDER");
      ("experience_score_raw", VNum 50);
      ("impact_score_raw", VNum 50);
      ("skills_score_raw", VNum 50);
      ("education_score_raw", VNum 50);
      ("certs_extras_score_raw", VNum 50) ].

Definition calculate_weighted_score (llm_scores : gmap string value) : gmap string value :=
  match weighted_try llm_scores with
  | Some r => r
  | None => default_scores
  end.



(** [json.loads] on a text that starts with an opening brace: the decoded
    object, or the JSONDecodeError it raises. *)
Variable json_loads : string -> result (gmap string value).

(** The result of [parse_score_from_json] when no JSON object is found
    ([weakness] is "Analysis format error") or when decoding raises
    ([weakness] is the parse error). *)
Definition parse_fallback (weakness json_str : string) : gmap string value :=
  dict_merge
    (dict_literal
      [ ("score", VNum 50);
        ("recommendation", VStr "CONSIDER");
        ("strengths", VList [VStr "Unable to parse analysis"]);
        ("weaknesses", VList [VStr weakness]);
        ("summary", VStr "Error parsing response");
        ("detailed_reasoning", VStr json_str) ])
    (calculate_weighted_score ∅).

Definition parse_score_from_json (json_str : string) : gmap string value :=
  match search_braces json_str with
  | Some json_match =>
      match json_loads json_match with
      | Ok json_data =>
          let weighted_scores := calculate_weighted_score json_data in
          dict_merge json_data weighted_scores
      | Raise e => parse_fallback ("Parse error: " ++ str e) json_str
      end
  | None => parse_fallback "Analysis format error" json_str
  end.

(** ** core/cv_analyzer.py: scoring one CV and a batch *)

(** The LLM behind [chain.invoke]: its answer to a prompt, or the
    exception it raises, given the world at the time of the call. *)
Variable llm : world -> string -> result string.

Definition invoke (prompt : string) : M string :=
  fun w => (llm w prompt, {| calls := calls w ++ [prompt]; slept := slept w |}).

(** The keyword arguments the scoring chain is invoked with. *)
Definition scoring_kwargs (job_description cv_content : string) (candidate_number : nat)
    (name : string) : option string :=
  if String.eqb name "job_description" then Some job_description
  else if String.eqb name "cv_content" then Some cv_content
  else if String.eqb name "candidate_number" then Some (Py.str_of_nat candidate_number)
  else None.

(** The prompt the scoring chain sends; [None] if formatting raises. *)
Definition scoring_prompt (job_description cv_content : string) (candidate_number : nat)
    : option string :=
  format SCORING_PROMPT (scoring_kwargs job_description cv_content candidate_number).

(** The dictionary of the [except] block of [score_cv]. *)
Definition error_result (e : exn) : gmap string value :=
  dict_literal
    [ ("score", VNum 0);
      ("recommendation", VStr "ERROR");
      ("strengths", VList []);
      ("weaknesses", VList [VStr ("Analysis error: " ++ str e)]);
      ("key_matches", VDict []);
      ("summary", VStr "Error during analysis");
      ("detailed_reasoning", VStr (str e)) ].

(** The body of [score_cv], under its decorator: a [try] whose [except
    Exception] returns the error dictionary.  Formatting this template
    with these three arguments does not raise, so the last branch is
    never taken. *)
Definition score_cv_body (job_description cv_content : string) (candidate_number : nat)
    : M (gmap string value) :=
  fun w =>
  match scoring_prompt job_description cv_content candidate_number with
  | Some prompt =>
      match invoke prompt w with
      | (Ok content, w') => (Ok (parse_score_from_json content), w')
      | (Raise e, w') => (Ok (error_result e), w')
      end
  | None => (Ok (error_result (Exception "candidate_number")), w)
  end.

(** [score_cv], decorated with [retry_with_exponential_backoff(max_retries=3)]. *)
Definition score_cv (job_description cv_content : string) (candidate_number : nat)
    : M (gmap string value) :=
  retry_with_exponential_backoff 3 INITIAL_RETRY_DELAY MAX_RETRY_DELAY
    (score_cv_body job_description cv_content candidate_number).

(** An element of [cv_data_list]. *)
Record cv_data : Type := { cv_file_name : string; cv_text : string }.

(** An element of the list [batch_score_cvs] returns. *)
Record scored : Type := {
  file_name : string;
  scored_cv_data : cv_data;
  score : Q;
  recommendation : value;
  analysis : gmap string value
}.

(** The [for cv_data in cv_data_list] loop.  [score_cv] is called without
    a candidate number, so with its default 1.  A missing key raises
    KeyError; the score is kept as the number it is (the sort compares
    scores, and [score_cv] returns no other kind of score, so the
    raising branches are never taken). *)
Fixpoint batch_loop (job_description : string) (cv_data_list : list cv_data)
    (results : list scored) : M (list scored) :=
  fun w =>
  match cv_data_list with
  | [] => (Ok results, w)
  | cv :: rest =>
      match score_cv job_description (cv_text cv) 1 w with
      | (Ok analysis, w') =>
          match analysis !! "score", analysis !! "recommendation" with
          | Some (VNum sc), Some rc =>
              batch_loop job_description rest
                (results ++ [ {| file_name := cv_file_name cv;
                                 scored_cv_data := cv;
                                 score := sc;
                                 recommendation := rc;
                                 analysis := analysis |} ]) w'
          | Some _, Some _ => (Raise (Exception "TypeError"), w')
          | None, _ => (Raise (Exception "score"), w')
          | _, None => (Raise (Exception "recommendation"), w')
          end
      | (Raise e, w') => (Raise e, w')
      end
  end.

Definition batch_score_cvs (job_description : string) (cv_data_list : list cv_data)
    : M (list scored) :=
  fun w =>
  match batch_loop job_description cv_data_list [] w with
  | (Ok results, w') => (Ok (sort_desc score results), w')
  | (Raise e, w') => (Raise e, w')
  end.

End CVAnalyzer.

(** ** core/cv_processor.py: the fallback name extractor *)

Module CVProcessor.
Import PyStr.

(** The headers a name line is not taken from. *)
Definition HEADERS : list string :=
  ["CURRICULUM VITAE"; "CV"; "RESUME"; "CONTACT"; "PERSONAL INFORMATION"].

(** The test of a line's words for a name: two to four words, each
    alphabetic once its periods and commas are removed. *)
Definition looks_like_name (line : string) : bool :=
  let words := split_ws line in
  (2 <=? length words)%nat && (length words <=? 4)%nat
  && forallb (fun w => isalpha (remove_char ","%char (remove_char "."%char w))) words.

(** The first loop: the first line that looks like a name. *)
Fixpoint find_name (lines : list string) : option string :=
  match lines with
  | [] => None
  | line :: rest =>
      let line := strip line in
      if is_empty line || in_list (upper line) HEADERS then find_name rest
      else if looks_like_name line then Some line
      else find_name rest
  end.

(** The second loop: the first non-empty line of fewer than 50 characters. *)
Fixpoint find_short (lines : list string) : option string :=
  match lines with
  | [] => None
  | line :: rest =>
      let line := strip line in
      if negb (is_empty line) && (String.length line <? 50)%nat then Some line
      else find_short rest
  end.

Definition extract_candidate_name (text : string) : string :=
  let lines := split_char nl (strip text) in
  match find_name (take 5 lines) with
  | Some line => line
  | None =>
      match find_short (take 10 lines) with
      | Some line => line
      | None => "Unknown Candidate"
      end
  end.

End CVProcessor.

(** ** features/analysis.py: the concurrent fan-out *)

Module Analysis.

(** An element of [cv_raw_list] and of [parsed_cv_list]. *)
Record raw_cv : Type := { raw_file_name : string; raw_text_of : string; raw_cv_id : nat }.

Record parsed_cv : Type := {
  file_name : string;
  cv_id : nat;
  raw_text : string;
  candidate_number : nat
}.

(** Step 2 of [analyze_cvs]: one element per extracted CV, numbered
    [i + 1] in the order of [enumerate(cv_raw_list)]. *)
Definition number_candidates (cv_raw_list : list raw_cv) : list parsed_cv :=
  imap (fun i cv => {| file_name := raw_file_name cv;
                       cv_id := raw_cv_id cv;
                       raw_text := raw_text_of cv;
                       candidate_number := i + 1 |}) cv_raw_list.

(** The [max_workers] argument of the executor. *)
Definition max_workers (total : nat) : nat := Nat.min 5 total.

(** A [ThreadPoolExecutor]: tasks waiting in its queue, tasks a worker
    thread is running, tasks done. *)
Record pool (T : Type) : Type := {
  pool_size : nat;
  queued : list T;
  in_flight : list T;
  completed : list T
}.
Arguments pool_size {T} p.
Arguments queued {T} p.
Arguments in_flight {T} p.
Arguments completed {T} p.

(** [ThreadPoolExecutor(max_workers=k)] raises ValueError unless [k] is
    positive. *)
Definition ThreadPoolExecutor (T : Type) (k : nat) : result (pool T) :=
  if (k =? 0)%nat then Raise (Exception "max_workers must be greater than 0")
  else Ok {| pool_size := k; queued := []; in_flight := []; completed := [] |}.

(** [executor.submit] for each task of the list, in order. *)
Definition submit_all {T : Type} (tasks : list T) (p : pool T) : pool T :=
  {| pool_size := pool_size p; queued := (queued p ++ tasks)%list;
     in_flight := in_flight p; completed := completed p |}.

(** The executor at work: an idle worker takes the head of the queue, or
    a running task finishes. *)
Inductive pool_step {T : Type} : pool T -> pool T -> Prop :=
| step_start (p : pool T) (t : T) (q : list T) :
    queued p = t :: q ->
    length (in_flight p) < pool_size p ->
    pool_step p {| pool_size := pool_size p; queued := q;
                   in_flight := (in_flight p ++ [t])%list; completed := completed p |}
| step_finish (p : pool T) (t : T) (l1 l2 : list T) :
    in_flight p = (l1 ++ t :: l2)%list ->
    pool_step p {| pool_size := pool_size p; queued := queued p;
                   in_flight := (l1 ++ l2)%list;
                   completed := (completed p ++ [t])%list |}.

Inductive pool_steps {T : Type} : pool T -> pool T -> Prop :=
| steps_refl (p : pool T) : pool_steps p p
| steps_step (p q r : pool T) : pool_steps p q -> pool_step q r -> pool_steps p r.

(** The executor of [analyze_cvs] once every CV is submitted. *)
Definition scoring_pool (parsed_cv_list : list parsed_cv) : result (pool parsed_cv) :=
  match ThreadPoolExecutor parsed_cv (max_workers (length parsed_cv_list)) with
  | Ok p => Ok (submit_all parsed_cv_list p)
  | Raise e => Raise e
  end.

End Analysis.

(** ** core/cv_analyzer.py: working with the ranked list *)

(** [l[:n]] for an int [n]: the first [n] elements, or for a negative
    [n] all but the last [-n]. *)
Definition slice_to {A : Type} (n : Z) (l : list A) : list A :=
  if (0 <=? n)%Z then take (Z.to_nat n) l
  else take (length l - Z.to_nat (- n)) l.

Definition get_top_candidates (scored_cvs : list scored) (top_n : Z) : list scored :=
  slice_to top_n scored_cvs.

(** [v == s] for a str [s]: only a str can equal it. *)
Definition eq_str (v : value) (s : string) : bool :=
  match v with
  | VStr r => String.eqb r s
  | _ => false
  end.

Definition get_candidates_by_recommendation (scored_cvs : list scored)
    (recommendation_level : string) : list scored :=
  List.filter (fun cv => eq_str (recommendation cv) recommendation_level) scored_cvs.

(** The statistics [generate_summary_report] computes before it writes
    the report: the total, the number of candidates of each of the four
    tiers and the average score. *)
Record statistics : Type := {
  total : nat;
  strongly_recommend : nat;
  recommend : nat;
  consider : nat;
  reject : nat;
  avg_score : Q
}.

(** [sum(xs)]. *)
Definition sum_scores (xs : list Q) : Q := fold_left Qplus xs 0%Q.

(** The statistics of the report; [None] stands for the early return of
    the text [No CVs analyzed yet.] on an empty list.  The markdown text
    written from the statistics is not modelled. *)
Definition summary_statistics (scored_cvs : list scored) : option statistics :=
  let total := length scored_cvs in
  if (total =? 0)%nat then None
  else
    Some {| total := total;
            strongly_recommend :=
              length (List.filter (fun cv => eq_str (recommendation cv) "STRONGLY RECOMMEND")
                        scored_cvs);
            recommend :=
              length (List.filter (fun cv => eq_str (recommendation cv) "RECOMMEND")
                        scored_cvs);
            consider :=
              length (List.filter (fun cv => eq_str (recommendation cv) "CONSIDER")
                        scored_cvs);
            reject :=
              length (List.filter (fun cv => eq_str (recommendation cv) "REJECT")
                        scored_cvs);
            avg_score := (sum_scores (map score scored_cvs)
                          / inject_Z (Z.of_nat total))%Q |}.

(** ** constants/constants.py: the profile extraction prompt *)

Import PyStr.

(** [CV_PARSING_PROMPT], one list element per line of the literal; the
    literal ends with a line break, hence the empty last line. *)
Definition CV_PARSING_PROMPT : string :=
  join_lines
  [ "You are an expert CV parser. Extract ALL information from this CV and return it in JSON format.";
    EmptyString;
    "CV Text:";
    "{cv_text}";
    EmptyString;
    "Extract and return ONLY a valid JSON object with these fields:";
    "{{";
    "    " ++ dq ++ "name" ++ dq ++ ": " ++ dq ++ "<candidate's full name>" ++ dq ++ ",";
    "    " ++ dq ++ "email" ++ dq ++ ": " ++ dq ++ "<email address or 'Not found'>" ++ dq ++ ",";
    "    " ++ dq ++ "phone" ++ dq ++ ": " ++ dq ++ "<phone number or 'Not found'>" ++ dq ++ ",";
    "    " ++ dq ++ "location" ++ dq ++ ": " ++ dq ++ "<city/country or 'Not found'>" ++ dq ++ ",";
    "    " ++ dq ++ "summary" ++ dq ++ ": " ++ dq ++ "<professional summary in 2-3 sentences>" ++ dq ++ ",";
    "    " ++ dq ++ "education" ++ dq ++ ": [";
    "        {{";
    "            " ++ dq ++ "degree" ++ dq ++ ": " ++ dq ++ "<degree/certification>" ++ dq ++ ",";
    "            " ++ dq ++ "institution" ++ dq ++ ": " ++ dq ++ "<school/university>" ++ dq ++ ",";
    "            " ++ dq ++ "year" ++ dq ++ ": " ++ dq ++ "<graduation year or period>" ++ dq ++ ",";
    "            " ++ dq ++ "details" ++ dq ++ ": " ++ dq ++ "<GPA, honors, relevant coursework>" ++ dq;
    "        }}";
    "    ],";
    "    " ++ dq ++ "experience" ++ dq ++ ": [";
    "        {{";
    "            " ++ dq ++ "title" ++ dq ++ ": " ++ dq ++ "<job title>" ++ dq ++ ",";
    "            " ++ dq ++ "company" ++ dq ++ ": " ++ dq ++ "<company name>" ++ dq ++ ",";
    "            " ++ dq ++ "duration" ++ dq ++ ": " ++ dq ++ "<time period>" ++ dq ++ ",";
    "            " ++ dq ++ "responsibilities" ++ dq ++ ": " ++ dq ++ "<key responsibilities and achievements>" ++ dq;
    "        }}";
    "    ],";
    "    " ++ dq ++ "skills" ++ dq ++ ": [" ++ dq ++ "<skill1>" ++ dq ++ ", " ++ dq ++ "<skill2>" ++ dq ++ ", " ++ dq ++ "<skill3>" ++ dq ++ "],";
    "    " ++ dq ++ "certifications" ++ dq ++ ": [" ++ dq ++ "<certification1>" ++ dq ++ ", " ++ dq ++ "<certification2>" ++ dq ++ "],";
    "    " ++ dq ++ "languages" ++ dq ++ ": [" ++ dq ++ "<language1>" ++ dq ++ ", " ++ dq ++ "<language2>" ++ dq ++ "]";
    "}}";
    EmptyString;
    "Rules:";
    "- Extract ALL available information from the CV";
    "- If information is not found, use " ++ dq ++ "Not found" ++ dq ++ " or empty arrays []";
    "- Be thorough and accurate";
    "- Keep it factual, no assumptions";
    "- Return ONLY the JSON object, no additional text";
    EmptyString ].

(** ** core/cv_processor.py: sections and profile extraction *)

Module Sections.

Definition education_keywords : list string :=
  ["education"; "qualification"; "academic"; "degree"; "university"; "college"].

Definition experience_keywords : list string :=
  ["experience"; "employment"; "work history"; "career"; "professional background"].

Definition skills_keywords : list string :=
  ["skills"; "competencies"; "expertise"; "technical skills"; "abilities"].

(** [any(keyword in line_lower for keyword in keywords)]. *)
Definition any_in (keywords : list string) (line_lower : string) : bool :=
  existsb (fun keyword => contains keyword line_lower) keywords.

(** The section a line belongs to, given the section of the line before. *)
Definition detect (current_section line : string) : string :=
  let line_lower := lower line in
  if any_in education_keywords line_lower then "education"
  else if any_in experience_keywords line_lower then "experience"
  else if any_in skills_keywords line_lower then "skills"
  else current_section.

(** The [for line in lines] loop: each line, with a line break, is added
    to the section it belongs to. *)
Fixpoint sections_loop (lines : list string) (current_section : string)
    (sections : gmap string string) : gmap string string :=
  match lines with
  | [] => sections
  | line :: rest =>
      let current_section := detect current_section line in
      sections_loop rest current_section
        (<[current_section := (sections !!! current_section) ++ line ++ String nl EmptyString]>
           sections)
  end.

(** [sep.join(xs)]. *)
Fixpoint join (sep : string) (xs : list string) : string :=
  match xs with
  | [] => EmptyString
  | [x] => x
  | x :: xs' => x ++ sep ++ join sep xs'
  end.

Definition is_nil {A : Type} (l : list A) : bool :=
  match l with [] => true | _ :: _ => false end.

Section WithPatterns.

(** [re.findall] with the e-mail pattern and with the phone pattern. *)
Variable findall_email : string -> list string.
Variable findall_phone : string -> list string.

Definition extract_cv_sections (text : string) : gmap string string :=
  let sections : gmap string string :=
    <["personal_info" := EmptyString]>
    (<["education" := EmptyString]>
    (<["experience" := EmptyString]>
    (<["skills" := EmptyString]>
    (<["other" := EmptyString]> ∅)))) in
  let lines := split_char nl text in
  let sections := sections_loop lines "other" sections in
  let emails := findall_email text in
  let phones := findall_phone text in
  if negb (is_nil emails) || negb (is_nil phones) then
    <["personal_info" := "Email: " ++ join ", " emails ++ String nl EmptyString
                         ++ "Phone: " ++ join ", " phones]> sections
  else sections.

End WithPatterns.

End Sections.

Module Profile.

Section WithLLM.

(** [re.search] with the e-mail pattern and with the phone pattern: the
    text of the first match, if any. *)
Variable search_email : string -> option string.
Variable search_phone : string -> option string.
Variable json_loads : string -> result (gmap string value).
Variable llm : world -> string -> result string.

Definition _fallback_extraction (text : string) : gmap string value :=
  let email := default "Not found" (search_email text) in
  let phone := default "Not found" (search_phone text) in
  let name := CVProcessor.extract_candidate_name text in
  dict_literal
    [ ("name", VStr name);
      ("email", VStr email);
      ("phone", VStr phone);
      ("location", VStr "Not found");
      ("summary", VStr "Information extracted using pattern matching") ].

Definition parsing_kwargs (text : string) (name : string) : option string :=
  if String.eqb name "cv_text" then Some text else None.

(** The body of [extract_candidate_info_with_llm], under its decorator:
    every [except] branch and the branch without a match return the
    fallback extraction. *)
Definition extract_candidate_info_body (text : string) : M (gmap string value) :=
  fun w =>
  match format CV_PARSING_PROMPT (parsing_kwargs text) with
  | Some prompt =>
      match llm w prompt with
      | Ok content =>
          let w' := {| calls := calls w ++ [prompt]; slept := slept w |} in
          match search_braces content with
          | Some json_match =>
              match json_loads json_match with
              | Ok info => (Ok info, w')
              | Raise _ => (Ok (_fallback_extraction text), w')
              end
          | None => (Ok (_fallback_extraction text), w')
          end
      | Raise _ =>
          (Ok (_fallback_extraction text),
           {| calls := calls w ++ [prompt]; slept := slept w |})
      end
  | None => (Ok (_fallback_extraction text), w)
  end.

(** [extract_candidate_info_with_llm], decorated with
    [retry_with_exponential_backoff(max_retries=3)]. *)
Definition extract_candidate_info_with_llm (text : string) : M (gmap string value) :=
  retry_with_exponential_backoff 3 INITIAL_RETRY_DELAY MAX_RETRY_DELAY
    (extract_candidate_info_body text).

End WithLLM.

End Profile.

(** ** features/analysis.py: from uploads to numbered candidates *)

Module Upload.

Record uploaded_file : Type := { name : string; data : string }.

Section WithExtractor.

(** Text extraction and the saving of the CV for one upload: the text
    and the id of the saved CV, or the exception either of them raises. *)
Variable extract_and_save : uploaded_file -> result (string * nat).

(** Step 1 of [analyze_cvs]: a file whose extraction or saving raises is
    reported and left out. *)
Fixpoint extract_step (uploaded_files : list uploaded_file) : list Analysis.raw_cv :=
  match uploaded_files with
  | [] => []
  | uploaded_file :: rest =>
      match extract_and_save uploaded_file with
      | Ok (cv_text, cv_id) =>
          {| Analysis.raw_file_name := name uploaded_file;
             Analysis.raw_text_of := cv_text;
             Analysis.raw_cv_id := cv_id |} :: extract_step rest
      | Raise _ => extract_step rest
      end
  end.

End WithExtractor.

End Upload.

(** ** Notions of the specification *)

(** The binding a dict literal ends up with for [k]: the last one listed. *)
Fixpoint assoc_last (k : string) (l : list (string * value)) (acc : option value)
  : option value :=
  match l with
  | [] => acc
  | (k', v) :: l' => assoc_last k l' (if String.eqb k' k then Some v else acc)
  end.

(** Clamping to [0,100], as the specification words it. *)
Definition clamp (x : Q) : Q :=
  if Qlt_le_dec x 0 then 0%Q else if Qlt_le_dec 100 x then 100%Q else x.

(** The weighted composite of the specification. *)
Definition weighted_sum (e i s ed c : Q) : Q :=
  (clamp e * (3 # 10) + clamp i * (2 # 10) + clamp s * (2 # 10)
   + clamp ed * (2 # 10) + clamp c * (1 # 10))%Q.

(** The five raw sub-scores of a rubric as numbers, when [float] accepts
    them all; a missing one counts as 50. *)
Definition raw_scores (float_of_str : string -> option Q) (d : gmap string value)
    (e i s ed c : Q) : Prop :=
  float float_of_str (get d "experience_score" (VNum 50)) = Some e /\
  float float_of_str (get d "impact_score" (VNum 50)) = Some i /\
  float float_of_str (get d "skills_score" (VNum 50)) = Some s /\
  float float_of_str (get d "education_score" (VNum 50)) = Some ed /\
  float float_of_str (get d "certs_extras_score" (VNum 50)) = Some c.

(** A number in [0, cap] is bound to [key]. *)
Definition bounded_at (r : gmap string value) (key : string) (cap : Q) : Prop :=
  exists x : Q, r !! key = Some (VNum x) /\ (0 <= x <= cap)%Q.

(** The result binds [key] to the weighted contribution of the raw
    sub-score [x] and [key_raw] to the clamped raw sub-score itself. *)
Definition criterion_at (r : gmap string value) (key key_raw : string) (x w : Q) : Prop :=
  r !! key = Some (VNum (Py.round1 (clamp x * w))) /\
  r !! key_raw = Some (VNum (Py.round1 (clamp x))).

(** No JSON object can be extracted from the response, or the extracted
    text fails to parse. *)
Definition parse_failure (json_loads : string -> result (gmap string value))
    (json_str : string) : Prop :=
  PyStr.search_braces json_str = None \/
  exists json_match e,
    PyStr.search_braces json_str = Some json_match /\ json_loads json_match = Raise e.

(** All five sub-scores at the floor of the scale. *)
Definition sub_scores_floored (r : gmap string value) : Prop :=
  r !! "experience_score" = Some (VNum 0) /\
  r !! "impact_score" = Some (VNum 0) /\
  r !! "skills_score" = Some (VNum 0) /\
  r !! "education_score" = Some (VNum 0) /\
  r !! "certs_extras_score" = Some (VNum 0).

(** All five raw sub-scores at the midpoint 50, with the contributions
    that follow from it. *)
Definition sub_scores_neutral (r : gmap string value) : Prop :=
  r !! "experience_score" = Some (VNum 15) /\
  r !! "impact_score" = Some (VNum 10) /\
  r !! "skills_score" = Some (VNum 10) /\
  r !! "education_score" = Some (VNum 10) /\
  r !! "certs_extras_score" = Some (VNum 5) /\
  r !! "experience_score_raw" = Some (VNum 50) /\
  r !! "impact_score_raw" = Some (VNum 50) /\
  r !! "skills_score_raw" = Some (VNum 50) /\
  r !! "education_score_raw" = Some (VNum 50) /\
  r !! "certs_extras_score_raw" = Some (VNum 50).

(** The exception is one the wrapper retries on. *)
Definition rate_limited (e : exn) : Prop := is_rate_limit (PyStr.lower (str e)) = true.

(** The error raised when the last allowed attempt hits a rate limit. *)
Definition terminal_error (e : exn) : exn :=
  Exception ("Max retries (3) reached. Rate limit error: " ++ str e).

(** A call that fails with a rate-limit error every time it is made, and
    records that it was made. *)
Definition always_rate_limited : M unit :=
  fun w => (Raise (Exception "Error code: 429 - Rate limit exceeded"),
            {| calls := calls w ++ ["call"]; slept := slept w |}).

(** Every replacement field of a parsed template is one of the three
    arguments of the scoring chain. *)
Definition fields_known (ps : list PyStr.piece) : bool :=
  forallb (fun p => match p with
                    | PyStr.Field name =>
                        PyStr.in_list name ["job_description"; "cv_content"; "candidate_number"]
                    | PyStr.Lit _ => true
                    end) ps.

(** Descending order of keys. *)
Definition key_ge {A : Type} (key : A -> Q) (a b : A) : Prop := (key b <= key a)%Q.

(** The elements whose key is the number [q], in the order of the list. *)
Definition with_key {A : Type} (key : A -> Q) (q : Q) (l : list A) : list A :=
  List.filter (fun x => Qeq_bool (key x) q) l.

(** The prompt of a scoring call, as a total function. *)
Definition prompt_of (job_description cv_content : string) (candidate_number : nat) : string :=
  default EmptyString (scoring_prompt job_description cv_content candidate_number).

(** The prompts [batch_score_cvs] sends for a list of CVs, in order. *)
Definition prompts_sent (job_description : string) (cvs : list cv_data) : list string :=
  map (fun cv => prompt_of job_description (cv_text cv) 1) cvs.

(** What the LLM does at each call of a batch, in order. *)
Fixpoint outcomes (llm : world -> string -> result string) (job_description : string)
    (cvs : list cv_data) (w : world) : list (result string) :=
  match cvs with
  | [] => []
  | cv :: rest =>
      let p := prompt_of job_description (cv_text cv) 1 in
      llm w p :: outcomes llm job_description rest
                   {| calls := calls w ++ [p]; slept := slept w |}
  end.

(** The entry of the batch result for one CV and one outcome of its LLM
    call: the analysis of the answer, or the error dictionary. *)
Definition entry_for (float_of_str : string -> option Q)
    (json_loads : string -> result (gmap string value))
    (cv : cv_data) (outcome : result string) (s : scored) : Prop :=
  file_name s = cv_file_name cv /\
  scored_cv_data s = cv /\
  analysis s = match outcome with
               | Ok content => parse_score_from_json float_of_str json_loads content
               | Raise e => error_result e
               end /\
  analysis s !! "score" = Some (VNum (score s)) /\
  analysis s !! "recommendation" = Some (recommendation s).

(** ** Concrete runs *)

Module Run.

(** No string is a number. *)
Definition no_float : string -> option Q := fun _ => None.

(** Every JSON text decodes to a rubric of five sub-scores of 80. *)
Definition rubric_80 : gmap string value :=
  dict_literal
    [ ("experience_score", VNum 80); ("impact_score", VNum 80);
      ("skills_score", VNum 80); ("education_score", VNum 80);
      ("certs_extras_score", VNum 80) ].

Definition loads_80 : string -> result (gmap string value) := fun _ => Ok rubric_80.

Definition rate_limit_error : exn := Exception "Error code: 429 - Rate limit exceeded".

(** An LLM that is rate limited at its third call only: a retry of that
    call would be answered. *)
Definition llm_third_call_limited : world -> string -> result string :=
  fun w _ => if (length (calls w) =? 2)%nat then Raise rate_limit_error
             else Ok "Here is the analysis: {...} thanks".

Definition five_cvs : list cv_data :=
  [ {| cv_file_name := "a.pdf"; cv_text := "CV of A" |};
    {| cv_file_name := "b.pdf"; cv_text := "CV of B" |};
    {| cv_file_name := "c.pdf"; cv_text := "CV of C" |};
    {| cv_file_name := "d.pdf"; cv_text := "CV of D" |};
    {| cv_file_name := "e.pdf"; cv_text := "CV of E" |} ].

Definition start : world := {| calls := []; slept := [] |}.

(** A rubric whose experience sub-score is out of range. *)
Definition rubric_150 : gmap string value :=
  dict_literal [("experience_score", VNum 150)].

(** Seven candidates, numbered as [analyze_cvs] numbers them. *)
Definition seven_candidates : list Analysis.parsed_cv :=
  Analysis.number_candidates
    (map (fun i => {| Analysis.raw_file_name := "cv.pdf";
                      Analysis.raw_text_of := "text";
                      Analysis.raw_cv_id := i |}) (seq 0 7)).

End Run.

(** ** The name extractor in words *)

Module NameSpec.
Import PyStr CVProcessor.

(** A line a name is taken from: not empty, not a header of the stoplist
    (compared in upper case), and looking like a name. *)
Definition name_line (line : string) : bool :=
  negb (is_empty line || in_list (upper line) HEADERS) && looks_like_name line.

(** A non-empty line of fewer than 50 characters. *)
Definition short_line (line : string) : bool :=
  negb (is_empty line) && (String.length line <? 50)%nat.

(** The lines of the stripped text, each stripped. *)
Definition stripped_lines (text : string) : list string :=
  map strip (split_char nl (strip text)).

Definition fallback_name (text : string) : string :=
  match List.find short_line (take 10 (stripped_lines text)) with
  | Some line => line
  | None => "Unknown Candidate"
  end.

(** The extractor as the claim words it: the name is looked for among
    the first five non-empty lines. *)
Definition extract_name_claimed (text : string) : string :=
  let non_empty := List.filter (fun l => negb (is_empty l)) (stripped_lines text) in
  match List.find name_line (take 5 non_empty) with
  | Some line => line
  | None => fallback_name text
  end.

(** The extractor as the code has it: the name is looked for among the
    first five lines, empty ones included in the count. *)
Definition extract_name_amended (text : string) : string :=
  match List.find name_line (take 5 (stripped_lines text)) with
  | Some line => line
  | None => fallback_name text
  end.

(** A header line, four empty lines, then the name on the sixth line. *)
Definition name_on_sixth_line : string :=
  join_lines ["x1"; EmptyString; EmptyString; EmptyString; EmptyString; "John Smith"].

End NameSpec.

(** ** Further notions used by the properties *)

(** The twelve keys of a weighted result. *)
Definition weighted_keys : list string :=
  [ "experience_score"; "impact_score"; "skills_score"; "education_score";
    "certs_extras_score"; "score"; "recommendation";
    "experience_score_raw"; "impact_score_raw"; "skills_score_raw";
    "education_score_raw"; "certs_extras_score_raw" ].

(** The dictionary the [try] block returns for five clamped sub-scores. *)
Definition weighted_dict (e i s ed c : Q) : gmap string value :=
  let total := (e * (3 # 10) + i * (2 # 10) + s * (2 # 10) + ed * (2 # 10)
                + c * (1 # 10))%Q in
  dict_literal
    [ ("experience_score", VNum (Py.round1 (e * (3 # 10))));
      ("impact_score", VNum (Py.round1 (i * (2 # 10))));
      ("skills_score", VNum (Py.round1 (s * (2 # 10))));
      ("education_score", VNum (Py.round1 (ed * (2 # 10))));
      ("certs_extras_score", VNum (Py.round1 (c * (1 # 10))));
      ("score", VNum (Py.round1 total));
      ("recommendation", VStr (recommendation_of total));
      ("experience_score_raw", VNum (Py.round1 e));
      ("impact_score_raw", VNum (Py.round1 i));
      ("skills_score_raw", VNum (Py.round1 s));
      ("education_score_raw", VNum (Py.round1 ed));
      ("certs_extras_score_raw", VNum (Py.round1 c)) ].

(** One of the five sub-scores is there but is not a number. *)
Definition some_score_not_numeric (float_of_str : string -> option Q)
    (d : gmap string value) : Prop :=
  float float_of_str (get d "experience_score" (VNum 50)) = None \/
  float float_of_str (get d "impact_score" (VNum 50)) = None \/
  float float_of_str (get d "skills_score" (VNum 50)) = None \/
  float float_of_str (get d "education_score" (VNum 50)) = None \/
  float float_of_str (get d "certs_extras_score" (VNum 50)) = None.

(** The returned score lies within the band of the returned tier. *)
Definition score_in_tier (t : Q) (tier : string) : Prop :=
  (tier = "STRONGLY RECOMMEND" /\ (80 <= t <= 100)%Q) \/
  (tier = "RECOMMEND" /\ (60 <= t <= 80)%Q) \/
  (tier = "CONSIDER" /\ (40 <= t <= 60)%Q) \/
  (tier = "REJECT" /\ (0 <= t <= 40)%Q).

(** The character [c] does not occur in [s]. *)
Definition no_char (c : ascii) (s : string) : Prop :=
  PyStr.all_chars (fun x => negb (Ascii.eqb x c)) s = true.

(** The text of a JSON object: an opening brace, a body, a closing brace. *)
Definition braced (body : string) : string :=
  String "{"%char (body ++ String "}"%char EmptyString).

(** An entry of a batch result carries a tier: ERROR with score 0, or one
    of the four tiers with a score in its band. *)
Definition entry_tiered (s : scored) : Prop :=
  exists tier : string,
    recommendation s = VStr tier /\
    ((tier = "ERROR" /\ score s = 0%Q) \/ score_in_tier (score s) tier).

(** The first [k] delays of the backoff that starts at [delay]: each one
    the double of the one before, capped at [max_delay]. *)
Fixpoint backoff (k : nat) (delay max_delay : Z) : list Z :=
  match k with
  | O => []
  | S k' => delay :: backoff k' (Z.min (delay * 2) max_delay) max_delay
  end.

(** The wrapped call does not sleep itself. *)
Definition keeps_sleep_log {A : Type} (func : M A) : Prop :=
  forall w, slept (snd (func w)) = slept w.

(** A call that raises [e] every time it is made, and records that it
    was made. *)
Definition always_raises (e : exn) : M unit :=
  fun w => (Raise e, {| calls := calls w ++ ["call"]; slept := slept w |}).

(** The text is empty or starts with a character that is no whitespace. *)
Definition starts_clean (s : string) : Prop :=
  match s with
  | EmptyString => True
  | String c _ => PyStr.is_space c = false
  end.

(** ** Notions for the CV sections *)

Module SectionsSpec.
Import PyStr Sections.

(** The line switches the section: it contains a keyword of one list. *)
Definition is_header (line : string) : bool :=
  any_in education_keywords (lower line) || any_in experience_keywords (lower line)
  || any_in skills_keywords (lower line).

(** The characters filed under the four sections lines are added to. *)
Definition filed (sections : gmap string string) : nat :=
  String.length (sections !!! "education") + String.length (sections !!! "experience")
  + String.length (sections !!! "skills") + String.length (sections !!! "other").

(** The lines before the first header line, each with its line break. *)
Fixpoint preamble (lines : list string) : string :=
  match lines with
  | [] => EmptyString
  | line :: rest =>
      if is_header line then EmptyString
      else line ++ String nl EmptyString ++ preamble rest
  end.

(** One of the four sections lines are added to. *)
Definition line_section (k : string) : Prop :=
  k = "education" \/ k = "experience" \/ k = "skills" \/ k = "other".

End SectionsSpec.

(** ** Notions for the prompts *)

Module PromptSpec.
Import PyStr.

Definition piece_eqb (p q : piece) : bool :=
  match p, q with
  | Lit a, Lit b => Ascii.eqb a b
  | Field m, Field n => String.eqb m n
  | _, _ => false
  end.

(** The pieces of a literal text. *)
Fixpoint lits (s : string) : list piece :=
  match s with
  | EmptyString => []
  | String c s' => Lit c :: lits s'
  end.

Fixpoint starts_with_pieces (seg ps : list piece) : bool :=
  match seg, ps with
  | [], _ => true
  | p :: seg', q :: ps' => piece_eqb p q && starts_with_pieces seg' ps'
  | _ :: _, [] => false
  end.

(** The template has the run of pieces [seg] somewhere. *)
Fixpoint has_segment (seg ps : list piece) : bool :=
  starts_with_pieces seg ps ||
  match ps with
  | [] => false
  | _ :: ps' => has_segment seg ps'
  end.

(** The label a scoring prompt gives its subject. *)
Definition candidate_label : list piece :=
  (lits "CANDIDATE #" ++ [Field "candidate_number"] ++ lits " CV:")%list.

End PromptSpec.

(** Every replacement field of a parsed template is [cv_text]. *)
Definition only_cv_text (ps : list PyStr.piece) : bool :=
  forallb (fun p => match p with
                    | PyStr.Field name => String.eqb name "cv_text"
                    | PyStr.Lit _ => true
                    end) ps.

(** The profile the extraction returns for an LLM outcome: the decoded
    object when the answer has one, the fallback extraction otherwise. *)
Definition profile_for (json_loads : string -> result (gmap string value))
    (fallback : gmap string value) (outcome : result string) : gmap string value :=
  match outcome with
  | Ok content =>
      match PyStr.search_braces content with
      | Some json_match =>
          match json_loads json_match with
          | Ok info => info
          | Raise _ => fallback
          end
      | None => fallback
      end
  | Raise _ => fallback
  end.

(** The upload was extracted and saved. *)
Definition extracted (extract_and_save : Upload.uploaded_file -> result (string * nat))
    (f : Upload.uploaded_file) : bool :=
  match extract_and_save f with
  | Ok _ => true
  | Raise _ => false
  end.

(** * Properties *)

Module PyFacts.
Import Py.

Lemma Qltb_lt x y : Qltb x y = true <-> (x < y)%Q.
Proof.
  unfold Qltb. rewrite negb_true_iff.
  destruct (Qle_bool y x) eqn:E.
  - apply Qle_bool_iff in E. split; [discriminate | intros H; exfalso; lra].
  - split; [intros _ | reflexivity].
    destruct (Qlt_le_dec x y) as [H | H]; [exact H |].
    apply Qle_bool_iff in H. congruence.
Qed.

Lemma Qltb_ge x y : Qltb x y = false <-> (y <= x)%Q.
Proof.
  unfold Qltb. rewrite negb_false_iff. apply Qle_bool_iff.
Qed.

Lemma round_half_even_ge (z : Z) (x : Q) :
  (inject_Z z <= x)%Q -> (z <= round_half_even x)%Z.
Proof.
  intros H. apply Qfloor_resp_le in H. rewrite Qfloor_Z in H.
  unfold round_half_even.
  destruct (x - inject_Z (Qfloor x) ?= 1 # 2)%Q; [destruct (Z.even _) | |]; lia.
Qed.

Lemma round_half_even_le (z : Z) (x : Q) :
  (x <= inject_Z z)%Q -> (round_half_even x <= z)%Z.
Proof.
  intros H. pose proof (Qfloor_resp_le _ _ H) as Hf. rewrite Qfloor_Z in Hf.
  unfold round_half_even.
  destruct (Z.eq_dec (Qfloor x) z) as [E | E].
  - (* x is the integer z itself, its fractional part is 0 *)
    pose proof (Qfloor_le x) as Hl. rewrite E in Hl.
    assert (Hx : (x - inject_Z (Qfloor x) == 0)%Q) by (rewrite E; lra).
    assert (Hc : (x - inject_Z (Qfloor x) ?= 1 # 2)%Q = Lt).
    { apply Qlt_alt. rewrite Hx. reflexivity. }
    rewrite Hc. lia.
  - destruct (x - inject_Z (Qfloor x) ?= 1 # 2)%Q; [destruct (Z.even _) | |]; lia.
Qed.

Lemma round_half_even_Z (z : Z) : round_half_even (inject_Z z) = z.
Proof.
  apply Z.le_antisymm.
  - apply round_half_even_le. lra.
  - apply round_half_even_ge. lra.
Qed.

(** Rounding to one decimal keeps a value within bounds that are
    themselves multiples of a tenth. *)
Lemma round1_bounds (lo hi : Z) (x : Q) :
  (lo # 10 <= x)%Q -> (x <= hi # 10)%Q ->
  (lo # 10 <= round1 x)%Q /\ (round1 x <= hi # 10)%Q.
Proof.
  intros Hlo Hhi. unfold round1. rewrite Qred_correct.
  assert (H1 : (inject_Z lo <= x * 10)%Q).
  { destruct x as [n d]. unfold Qle, Qmult, inject_Z in *. simpl in *. lia. }
  assert (H2 : (x * 10 <= inject_Z hi)%Q).
  { destruct x as [n d]. unfold Qle, Qmult, inject_Z in *. simpl in *. lia. }
  apply round_half_even_ge in H1. apply round_half_even_le in H2.
  unfold Qle. simpl. lia.
Qed.

Lemma round_half_even_comp (x y : Q) :
  (x == y)%Q -> round_half_even x = round_half_even y.
Proof.
  intros H. unfold round_half_even. rewrite (Qfloor_comp _ _ H).
  assert (Hc : (x - inject_Z (Qfloor y) ?= 1 # 2)%Q
               = (y - inject_Z (Qfloor y) ?= 1 # 2)%Q).
  { rewrite H. reflexivity. }
  rewrite Hc. reflexivity.
Qed.

(** [round1] depends on the number only, not on the fraction that
    denotes it. *)
Lemma round1_comp (x y : Q) : (x == y)%Q -> round1 x = round1 y.
Proof.
  intros H. unfold round1.
  rewrite (round_half_even_comp (x * 10) (y * 10)); [reflexivity |].
  rewrite H. reflexivity.
Qed.

End PyFacts.

(** ** Dictionaries *)

Section DictFacts.

Lemma fold_insert_lookup (l : list (string * value)) (m : gmap string value) (k : string) :
  fold_left (fun m kv => <[kv.1 := kv.2]> m) l m !! k = assoc_last k l (m !! k).
Proof.
  revert m. induction l as [| [k' v] l IH]; intros m; simpl; [reflexivity |].
  rewrite IH. f_equal.
  destruct (String.eqb_spec k' k) as [-> | Hne].
  - apply lookup_insert_eq.
  - apply lookup_insert_ne. exact Hne.
Qed.

Lemma dict_literal_lookup (l : list (string * value)) (k : string) :
  dict_literal l !! k = assoc_last k l None.
Proof.
  unfold dict_literal. rewrite fold_insert_lookup, lookup_empty. reflexivity.
Qed.

Lemma dict_merge_lookup (a b : gmap string value) (k : string) :
  dict_merge a b !! k =
  match b !! k with Some v => Some v | None => a !! k end.
Proof.
  unfold dict_merge. rewrite lookup_union.
  destruct (b !! k), (a !! k); reflexivity.
Qed.

End DictFacts.

(** ** The weighted score *)

Module ScorerFacts.
Import Py PyFacts.

Lemma clamp_range (x : Q) : (0 <= clamp x <= 100)%Q.
Proof.
  unfold clamp. destruct (Qlt_le_dec x 0); [lra |].
  destruct (Qlt_le_dec 100 x); lra.
Qed.

(** The code's [max(0, min(100, x))] is that clamp. *)
Lemma max_min_clamp (x : Q) : (Py.max 0 (Py.min 100 x) == clamp x)%Q.
Proof.
  unfold Py.max, Py.min, clamp.
  destruct (Qltb x 100) eqn:E1.
  - apply Qltb_lt in E1.
    destruct (Qltb 0 x) eqn:E2.
    + apply Qltb_lt in E2.
      destruct (Qlt_le_dec x 0); [lra |]. destruct (Qlt_le_dec 100 x); lra.
    + apply Qltb_ge in E2.
      destruct (Qlt_le_dec x 0); [lra |]. destruct (Qlt_le_dec 100 x); lra.
  - apply Qltb_ge in E1.
    assert (E2 : Qltb 0 100 = true) by reflexivity. rewrite E2.
    destruct (Qlt_le_dec x 0); [lra |]. destruct (Qlt_le_dec 100 x); lra.
Qed.

Lemma weights_lookup :
  WEIGHTS !! "experience" = Some (3 # 10) /\
  WEIGHTS !! "impact" = Some (2 # 10) /\
  WEIGHTS !! "skills" = Some (2 # 10) /\
  WEIGHTS !! "education" = Some (2 # 10) /\
  WEIGHTS !! "certs_extras" = Some (1 # 10).
Proof. repeat split; reflexivity. Qed.

(** The weights of constants.py sum to one. *)
Lemma weights_sum : ((3 # 10) + (2 # 10) + (2 # 10) + (2 # 10) + (1 # 10) == 1)%Q.
Proof. reflexivity. Qed.

End ScorerFacts.

Section ScorerTheorems.
Import Py PyFacts ScorerFacts.

Variable float_of_str : string -> option Q.

Lemma weighted_sum_range (e i s ed c : Q) : (0 <= weighted_sum e i s ed c <= 100)%Q.
Proof.
  unfold weighted_sum.
  pose proof (clamp_range e). pose proof (clamp_range i).
  pose proof (clamp_range s). pose proof (clamp_range ed).
  pose proof (clamp_range c). lra.
Qed.

Lemma round1_percent (x : Q) : (0 <= x <= 100)%Q -> (0 <= round1 x <= 100)%Q.
Proof.
  intros [H0 H1].
  destruct (round1_bounds 0 1000 x) as [Ha Hb]; [lra | lra |].
  split; lra.
Qed.

(** What the [try] block computes when no statement of it raises. *)
Lemma weighted_try_some (d : gmap string value) (e i s ed c : Q) :
  raw_scores float_of_str d e i s ed c ->
  exists r, weighted_try float_of_str d = Some r /\
    r !! "score" = Some (VNum (round1 (weighted_sum e i s ed c))) /\
    r !! "recommendation" =
      Some (VStr (recommendation_of
        (Py.max 0 (Py.min 100 e) * (3 # 10) + Py.max 0 (Py.min 100 i) * (2 # 10)
         + Py.max 0 (Py.min 100 s) * (2 # 10) + Py.max 0 (Py.min 100 ed) * (2 # 10)
         + Py.max 0 (Py.min 100 c) * (1 # 10)))) /\
    r !! "experience_score" = Some (VNum (round1 (clamp e * (3 # 10)))) /\
    r !! "impact_score" = Some (VNum (round1 (clamp i * (2 # 10)))) /\
    r !! "skills_score" = Some (VNum (round1 (clamp s * (2 # 10)))) /\
    r !! "education_score" = Some (VNum (round1 (clamp ed * (2 # 10)))) /\
    r !! "certs_extras_score" = Some (VNum (round1 (clamp c * (1 # 10)))) /\
    r !! "experience_score_raw" = Some (VNum (round1 (clamp e))) /\
    r !! "impact_score_raw" = Some (VNum (round1 (clamp i))) /\
    r !! "skills_score_raw" = Some (VNum (round1 (clamp s))) /\
    r !! "education_score_raw" = Some (VNum (round1 (clamp ed))) /\
    r !! "certs_extras_score_raw" = Some (VNum (round1 (clamp c))).
Proof.
  intros (He & Hi & Hs & Hed & Hc).
  unfold weighted_try. rewrite He, Hi, Hs, Hed, Hc. simpl.
  destruct weights_lookup as (W1 & W2 & W3 & W4 & W5).
  rewrite W1, W2, W3, W4, W5. simpl.
  eexists. split; [reflexivity |].
  rewrite !dict_literal_lookup. simpl.
  repeat split; try reflexivity;
    do 2 f_equal; apply round1_comp; unfold weighted_sum;
    rewrite ?max_min_clamp; reflexivity.
Qed.

(** Either all five conversions succeed, or the [try] block raises. *)
Lemma weighted_try_cases (d : gmap string value) :
  (exists e i s ed c, raw_scores float_of_str d e i s ed c) \/
  weighted_try float_of_str d = None.
Proof.
  unfold raw_scores, weighted_try.
  destruct (float float_of_str (get d "experience_score" (VNum 50))) as [e |];
    [| right; reflexivity].
  destruct (float float_of_str (get d "impact_score" (VNum 50))) as [i |];
    [| right; reflexivity].
  destruct (float float_of_str (get d "skills_score" (VNum 50))) as [s |];
    [| right; reflexivity].
  destruct (float float_of_str (get d "education_score" (VNum 50))) as [ed |];
    [| right; reflexivity].
  destruct (float float_of_str (get d "certs_extras_score" (VNum 50))) as [c |];
    [| right; reflexivity].
  left. exists e, i, s, ed, c. repeat split; reflexivity.
Qed.


End ScorerTheorems.


(** ** The recommendation tier *)

Section TierTheorems.
Import Py PyFacts ScorerFacts.

Variable float_of_str : string -> option Q.

Lemma recommendation_of_comp (x y : Q) :
  (x == y)%Q -> recommendation_of x = recommendation_of y.
Proof.
  intros H. unfold recommendation_of.
  rewrite (Qleb_comp 80%Q 80%Q (Qeq_refl 80%Q) x y H).
  rewrite (Qleb_comp 60%Q 60%Q (Qeq_refl 60%Q) x y H).
  rewrite (Qleb_comp 40%Q 40%Q (Qeq_refl 40%Q) x y H).
  reflexivity.
Qed.

(** The tier [calculate_weighted_score] returns is the tier of the
    weighted sum before it is rounded. *)
Lemma calculate_weighted_score_recommendation (d : gmap string value) (e i s ed c : Q) :
  raw_scores float_of_str d e i s ed c ->
  calculate_weighted_score float_of_str d !! "recommendation"
  = Some (VStr (recommendation_of (weighted_sum e i s ed c))).
Proof.
  intros Hraw. unfold calculate_weighted_score.
  destruct (weighted_try_some float_of_str d e i s ed c Hraw) as (r & Hr & _ & Hrec & _).
  rewrite Hr, Hrec. do 2 f_equal. apply recommendation_of_comp.
  unfold weighted_sum. rewrite !max_min_clamp. reflexivity.
Qed.


End TierTheorems.


(** ** Parsing the LLM response *)

Section ParseTheorems.
Import Py PyFacts ScorerFacts PyStr.

Variable float_of_str : string -> option Q.
Variable json_loads : string -> result (gmap string value).

Lemma contribution_bounds (x : Q) (w cap : Z) :
  (0 <= w)%Z -> (cap = 100 * w)%Z ->
  (0 <= round1 (clamp x * (w # 10)) <= cap # 10)%Q.
Proof.
  intros Hw Hcap. pose proof (clamp_range x) as [H0 H1].
  assert (Hwq : (0 <= w # 10)%Q) by (unfold Qle; simpl; lia).
  assert (Hlo : (0 # 10 <= clamp x * (w # 10))%Q).
  { assert (0 <= clamp x * (w # 10))%Q by (apply Qmult_le_0_compat; assumption). lra. }
  assert (Hhi : (clamp x * (w # 10) <= cap # 10)%Q).
  { assert (H : (clamp x * (w # 10) <= 100 * (w # 10))%Q).
    { apply Qmult_le_compat_r; assumption. }
    assert (H' : (100 * (w # 10) == cap # 10)%Q).
    { subst cap. unfold Qeq, Qmult. simpl. lia. }
    rewrite H' in H. exact H. }
  destruct (round1_bounds 0 cap _ Hlo Hhi) as [Ha Hb].
  split; [lra | exact Hb].
Qed.

(** Every result of [calculate_weighted_score] carries the five weighted
    contributions, each within the share of its weight. *)
Lemma calculate_weighted_score_bounded (d : gmap string value) :
  let r := calculate_weighted_score float_of_str d in
  bounded_at r "experience_score" 30 /\
  bounded_at r "impact_score" 20 /\
  bounded_at r "skills_score" 20 /\
  bounded_at r "education_score" 20 /\
  bounded_at r "certs_extras_score" 10.
Proof.
  unfold calculate_weighted_score, bounded_at.
  destruct (weighted_try_cases float_of_str d) as [(e & i & s & ed & c & Hraw) | Hnone].
  - destruct (weighted_try_some float_of_str d e i s ed c Hraw)
      as (r & Hr & _ & _ & H1 & H2 & H3 & H4 & H5 & _).
    rewrite Hr. cbv zeta.
    pose proof (contribution_bounds e 3 300 ltac:(lia) ltac:(lia)).
    pose proof (contribution_bounds i 2 200 ltac:(lia) ltac:(lia)).
    pose proof (contribution_bounds s 2 200 ltac:(lia) ltac:(lia)).
    pose proof (contribution_bounds ed 2 200 ltac:(lia) ltac:(lia)).
    pose proof (contribution_bounds c 1 100 ltac:(lia) ltac:(lia)).
    repeat split; eexists; (split; [eassumption |]); split; lra.
  - rewrite Hnone. cbv zeta.
    repeat split; eexists; (split; [reflexivity |]); split; lra.
Qed.


(** With no sub-score supplied, every criterion takes the default 50. *)
Lemma calculate_weighted_score_empty :
  calculate_weighted_score float_of_str ∅ = default_scores.
Proof. vm_compute. reflexivity. Qed.

Lemma parse_fallback_lookup (weakness json_str key : string) :
  parse_fallback float_of_str weakness json_str !! key =
  match default_scores !! key with
  | Some v => Some v
  | None =>
      dict_literal
        [ ("score", VNum 50);
          ("recommendation", VStr "CONSIDER");
          ("strengths", VList [VStr "Unable to parse analysis"]);
          ("weaknesses", VList [VStr weakness]);
          ("summary", VStr "Error parsing response");
          ("detailed_reasoning", VStr json_str) ] !! key
  end.
Proof.
  unfold parse_fallback. rewrite dict_merge_lookup, calculate_weighted_score_empty.
  reflexivity.
Qed.

(** C2, as the code has it.  For every response from which no JSON
    object can be extracted or whose JSON fails to parse, the scorer
    returns the default result: recommendation CONSIDER, the markers
    [Error parsing response] and [Unable to parse analysis], the response
    text as detailed reasoning, every raw sub-score at the default 50
    (contributions 15, 10, 10, 10, 5) and the total 50, which is the total
    of [calculate_weighted_score] on the empty dictionary. *)
Theorem parse_failure_default (json_str : string) :
  parse_failure json_loads json_str ->
  let r := parse_score_from_json float_of_str json_loads json_str in
  r !! "recommendation" = Some (VStr "CONSIDER") /\
  r !! "summary" = Some (VStr "Error parsing response") /\
  r !! "strengths" = Some (VList [VStr "Unable to parse analysis"]) /\
  r !! "detailed_reasoning" = Some (VStr json_str) /\
  r !! "score" = Some (VNum 50) /\
  r !! "score" = calculate_weighted_score float_of_str ∅ !! "score" /\
  sub_scores_neutral r.
Proof.
  intros Hfail r.
  assert (Hr : exists weakness, r = parse_fallback float_of_str weakness json_str).
  { subst r. unfold parse_score_from_json.
    destruct Hfail as [Hnone | (m & e & Hm & He)].
    - rewrite Hnone. eexists. reflexivity.
    - rewrite Hm, He. eexists. reflexivity. }
  destruct Hr as (weakness & ->).
  unfold sub_scores_neutral.
  rewrite calculate_weighted_score_empty, !parse_fallback_lookup.
  repeat split.
Qed.

End ParseTheorems.


(** C2 as stated fails: a response with no JSON object gets the default
    sub-scores, which are not at the floor. *)
Lemma parse_failure_not_floored :
  parse_failure (fun _ => Raise (Exception "Expecting value")) "no json object here" /\
  ~ sub_scores_floored
      (parse_score_from_json (fun _ => None)
         (fun _ => Raise (Exception "Expecting value")) "no json object here").
Proof.
  split.
  - left. reflexivity.
  - intros (H & _). vm_compute in H. discriminate H.
Qed.

Lemma parse_failure_default_witness :
  let r := parse_score_from_json (fun _ => None)
             (fun _ => Raise (Exception "Expecting value")) "no json object here" in
  r !! "recommendation" = Some (VStr "CONSIDER") /\
  r !! "score" = Some (VNum 50) /\
  sub_scores_neutral r.
Proof.
  destruct (parse_failure_default (fun _ => None)
              (fun _ => Raise (Exception "Expecting value")) "no json object here")
    as (H1 & _ & _ & _ & H5 & _ & H7).
  - left. reflexivity.
  - split; [exact H1 | split; [exact H5 | exact H7]].
Defined.

(** ** The retry wrapper *)

Section RetryTheorems.
Import PyStr.

Context {A : Type}.
Variable func : M A.

Local Abbreviation wrapped :=
  (retry_with_exponential_backoff MAX_RETRIES INITIAL_RETRY_DELAY MAX_RETRY_DELAY func).

Lemma retry_first_ok (w w1 : world) (a : A) :
  func w = (Ok a, w1) -> wrapped w = (Ok a, w1).
Proof.
  intros H. unfold retry_with_exponential_backoff. simpl. rewrite H. reflexivity.
Qed.

Lemma retry_first_other (w w1 : world) (e : exn) :
  func w = (Raise e, w1) -> ~ rate_limited e -> wrapped w = (Raise e, w1).
Proof.
  intros H Hn. unfold retry_with_exponential_backoff. simpl. rewrite H.
  unfold rate_limited in Hn. destruct (is_rate_limit (lower (str e))); [congruence | reflexivity].
Qed.

(** After a first rate-limit failure the wrapper sleeps 2 seconds and
    calls again, with 4 seconds as the next delay. *)
Lemma retry_second (w w1 : world) (e1 : exn) :
  func w = (Raise e1, w1) -> rate_limited e1 ->
  wrapped w =
  retry_loop MAX_RETRIES MAX_RETRY_DELAY func 2 1 4 (Some e1) (sleep 2 w1).
Proof.
  intros H Hr. unfold retry_with_exponential_backoff. simpl. rewrite H, Hr. reflexivity.
Qed.

Lemma retry_third (w w1 w2 : world) (e1 e2 : exn) :
  func w = (Raise e1, w1) -> rate_limited e1 ->
  func (sleep 2 w1) = (Raise e2, w2) -> rate_limited e2 ->
  wrapped w =
  retry_loop MAX_RETRIES MAX_RETRY_DELAY func 1 2 8 (Some e2) (sleep 4 w2).
Proof.
  intros H1 Hr1 H2 Hr2. rewrite (retry_second w w1 e1 H1 Hr1).
  simpl. rewrite H2, Hr2. reflexivity.
Qed.


End RetryTheorems.


(** With more attempts allowed the delays go 2, 4, 8, 16, 30, 30: doubled
    each time and capped at the maximal delay. *)
Example retry_delay_sequence :
  slept (snd (retry_with_exponential_backoff 7 INITIAL_RETRY_DELAY MAX_RETRY_DELAY
                always_rate_limited {| calls := []; slept := [] |}))
  = [2; 4; 8; 16; 30; 30]%Z.
Proof. reflexivity. Qed.

(** ** The stable descending sort *)

Section SortFacts.
Import Py PyFacts.
Context {A : Type} (key : A -> Q).

Lemma insert_desc_perm (x : A) (l : list A) :
  Permutation (x :: l) (insert_desc key x l).
Proof.
  induction l as [| y l IH]; simpl; [reflexivity |].
  destruct (Qltb (key x) (key y)); [| reflexivity].
  rewrite perm_swap. apply perm_skip. exact IH.
Qed.

Lemma sort_desc_perm (l : list A) : Permutation l (sort_desc key l).
Proof.
  induction l as [| x l IH]; simpl; [reflexivity |].
  rewrite <- insert_desc_perm. apply perm_skip. exact IH.
Qed.

Lemma sort_desc_length (l : list A) : length (sort_desc key l) = length l.
Proof. symmetry. apply Permutation_length, sort_desc_perm. Qed.

Lemma insert_desc_sorted (x : A) (l : list A) :
  StronglySorted (key_ge key) l -> StronglySorted (key_ge key) (insert_desc key x l).
Proof.
  induction 1 as [| y l Hs IH Hall]; simpl.
  - constructor; [constructor | constructor].
  - destruct (Qltb (key x) (key y)) eqn:E.
    + apply Qltb_lt in E. constructor; [exact IH |].
      apply (Permutation_Forall (insert_desc_perm x l)).
      constructor; [unfold key_ge; lra | exact Hall].
    + apply Qltb_ge in E. constructor; [constructor; assumption |].
      constructor; [exact E |].
      rewrite List.Forall_forall in Hall |- *.
      intros z Hz. specialize (Hall z Hz). unfold key_ge in *. lra.
Qed.

Lemma sort_desc_sorted (l : list A) : StronglySorted (key_ge key) (sort_desc key l).
Proof.
  induction l as [| x l IH]; simpl; [constructor |].
  apply insert_desc_sorted, IH.
Qed.

(** Inserting puts the new element in front of the elements with its key. *)
Lemma with_key_insert (q : Q) (x : A) (l : list A) :
  with_key key q (insert_desc key x l) =
  if Qeq_bool (key x) q then x :: with_key key q l else with_key key q l.
Proof.
  unfold with_key. induction l as [| y l IH]; simpl; [reflexivity |].
  destruct (Qltb (key x) (key y)) eqn:E; [| reflexivity].
  apply Qltb_lt in E. simpl. rewrite IH.
  destruct (Qeq_bool (key x) q) eqn:Ex; [| reflexivity].
  apply Qeq_bool_iff in Ex.
  destruct (Qeq_bool (key y) q) eqn:Ey; [| reflexivity].
  apply Qeq_bool_iff in Ey. lra.
Qed.

(** Stability: the elements of any one key are in their original order. *)
Lemma sort_desc_stable (q : Q) (l : list A) :
  with_key key q (sort_desc key l) = with_key key q l.
Proof.
  induction l as [| x l IH]; simpl; [reflexivity |].
  rewrite with_key_insert, IH. unfold with_key. simpl.
  destruct (Qeq_bool (key x) q); reflexivity.
Qed.

End SortFacts.

(** ** Scoring one CV *)

Section ScoreTheorems.
Import Py PyFacts ScorerFacts PyStr.

Variable float_of_str : string -> option Q.
Variable json_loads : string -> result (gmap string value).
Variable llm : world -> string -> result string.

Lemma render_known (ps : list piece) (kwargs : string -> option string) :
  fields_known ps = true ->
  (forall name,
     in_list name ["job_description"; "cv_content"; "candidate_number"] = true ->
     is_Some (kwargs name)) ->
  is_Some (render ps kwargs).
Proof.
  intros Hps Hk. induction ps as [| p ps IH]; simpl; [eexists; reflexivity |].
  simpl in Hps. apply andb_prop in Hps as [Hp Hrest].
  destruct (IH Hrest) as [r Hr]. destruct p as [c | name].
  - rewrite Hr. eexists. reflexivity.
  - destruct (Hk name Hp) as [v Hv]. rewrite Hv, Hr. eexists. reflexivity.
Qed.

Lemma scoring_prompt_fields :
  match parse_format SCORING_PROMPT None with
  | Some ps => fields_known ps
  | None => false
  end = true.
Proof. vm_compute. reflexivity. Qed.

(** Formatting the scoring prompt never raises. *)
Lemma scoring_prompt_some (job_description cv_content : string) (candidate_number : nat) :
  is_Some (scoring_prompt job_description cv_content candidate_number).
Proof.
  unfold scoring_prompt, format. pose proof scoring_prompt_fields as H.
  destruct (parse_format SCORING_PROMPT None) as [ps |]; [| discriminate H].
  simpl. apply render_known; [exact H |].
  intros name Hn. unfold scoring_kwargs. unfold in_list in Hn. simpl in Hn.
  destruct (String.eqb name "job_description"); [eexists; reflexivity |].
  destruct (String.eqb name "cv_content"); [eexists; reflexivity |].
  destruct (String.eqb name "candidate_number"); [eexists; reflexivity |].
  discriminate Hn.
Qed.

(** The body of [score_cv] returns a dictionary whatever the LLM does:
    the parsed analysis of its answer, or the error dictionary of the
    exception it raised. *)
Lemma score_cv_body_spec (jd cv : string) (n : nat) (w : world) :
  exists prompt,
    scoring_prompt jd cv n = Some prompt /\
    score_cv_body float_of_str json_loads llm jd cv n w =
    (Ok (match llm w prompt with
         | Ok content => parse_score_from_json float_of_str json_loads content
         | Raise e => error_result e
         end),
     {| calls := calls w ++ [prompt]; slept := slept w |}).
Proof.
  destruct (scoring_prompt_some jd cv n) as [prompt Hp]. exists prompt.
  split; [exact Hp |].
  unfold score_cv_body, invoke. rewrite Hp.
  destruct (llm w prompt); reflexivity.
Qed.

(** The retry wrapper around [score_cv] never sees an exception: the
    decorated function is its body, called once. *)
Lemma score_cv_is_body (jd cv : string) (n : nat) (w : world) :
  score_cv float_of_str json_loads llm jd cv n w =
  score_cv_body float_of_str json_loads llm jd cv n w.
Proof.
  destruct (score_cv_body_spec jd cv n w) as (prompt & _ & H).
  unfold score_cv, retry_with_exponential_backoff. simpl. rewrite H. reflexivity.
Qed.

Lemma calculate_weighted_score_shape (d : gmap string value) :
  exists (t : Q) (tier : string),
    calculate_weighted_score float_of_str d !! "score" = Some (VNum t) /\
    calculate_weighted_score float_of_str d !! "recommendation" = Some (VStr tier).
Proof.
  unfold calculate_weighted_score.
  destruct (weighted_try_cases float_of_str d) as [(e & i & s & ed & c & Hraw) | Hnone].
  - destruct (weighted_try_some float_of_str d e i s ed c Hraw)
      as (r & Hr & Hscore & Hrec & _).
    rewrite Hr. eexists _, _. split; [exact Hscore | exact Hrec].
  - rewrite Hnone. eexists _, _. split; reflexivity.
Qed.

(** Every analysis has a numeric score and a recommendation. *)
Lemma parse_score_from_json_shape (json_str : string) :
  exists (t : Q) (tier : string),
    parse_score_from_json float_of_str json_loads json_str !! "score" = Some (VNum t) /\
    parse_score_from_json float_of_str json_loads json_str !! "recommendation"
      = Some (VStr tier).
Proof.
  unfold parse_score_from_json.
  destruct (search_braces json_str) as [m |].
  - destruct (json_loads m) as [d | e].
    + destruct (calculate_weighted_score_shape d) as (t & tier & Hs & Hr).
      exists t, tier. rewrite !dict_merge_lookup, Hs, Hr. split; reflexivity.
    + exists 50%Q, "CONSIDER". rewrite !parse_fallback_lookup. split; reflexivity.
  - exists 50%Q, "CONSIDER". rewrite !parse_fallback_lookup. split; reflexivity.
Qed.

Lemma score_cv_shape (jd cv : string) (n : nat) (w : world) :
  exists (prompt : string) (a : gmap string value) (t : Q) (tier : string),
    scoring_prompt jd cv n = Some prompt /\
    score_cv float_of_str json_loads llm jd cv n w =
      (Ok a, {| calls := calls w ++ [prompt]; slept := slept w |}) /\
    a !! "score" = Some (VNum t) /\
    a !! "recommendation" = Some (VStr tier) /\
    (forall e, llm w prompt = Raise e -> a = error_result e) /\
    (forall content, llm w prompt = Ok content ->
       a = parse_score_from_json float_of_str json_loads content).
Proof.
  destruct (score_cv_body_spec jd cv n w) as (prompt & Hp & H).
  rewrite score_cv_is_body, H. exists prompt.
  destruct (llm w prompt) as [content | e].
  - destruct (parse_score_from_json_shape content) as (t & tier & Hs & Hr).
    eexists _, t, tier. repeat split; try eassumption; congruence.
  - eexists _, 0%Q, "ERROR". repeat split; try eassumption; congruence.
Qed.

(** When the LLM call raises, whatever the exception, [score_cv] returns
    the error dictionary after that single call and without sleeping. *)
Lemma score_cv_llm_raises (jd cv : string) (n : nat) (w : world) (prompt : string)
    (e : exn) :
  scoring_prompt jd cv n = Some prompt ->
  llm w prompt = Raise e ->
  score_cv float_of_str json_loads llm jd cv n w =
  (Ok (error_result e), {| calls := calls w ++ [prompt]; slept := slept w |}).
Proof.
  intros Hp He. destruct (score_cv_body_spec jd cv n w) as (prompt' & Hp' & H).
  rewrite score_cv_is_body, H.
  assert (prompt' = prompt) by congruence. subst. rewrite He. reflexivity.
Qed.

End ScoreTheorems.

(** ** Scoring a batch *)

Section BatchTheorems.
Import Py PyFacts PyStr.

Variable float_of_str : string -> option Q.
Variable json_loads : string -> result (gmap string value).
Variable llm : world -> string -> result string.

Lemma batch_loop_spec (jd : string) (cvs : list cv_data) :
  forall (results : list scored) (w : world),
  exists new : list scored,
    batch_loop float_of_str json_loads llm jd cvs results w =
      (Ok (results ++ new)%list,
       {| calls := calls w ++ prompts_sent jd cvs; slept := slept w |}) /\
    Forall3 (entry_for float_of_str json_loads) cvs (outcomes llm jd cvs w) new.
Proof.
  induction cvs as [| cv rest IH]; intros results w; simpl.
  - exists []. rewrite !app_nil_r. destruct w. split; [reflexivity | constructor].
  - destruct (score_cv_shape float_of_str json_loads llm jd (cv_text cv) 1 w)
      as (prompt & a & t & tier & Hp & Hscore & Hs & Hr & Hraise & Hok).
    rewrite Hscore, Hs, Hr.
    assert (Hprompt : prompt_of jd (cv_text cv) 1 = prompt).
    { unfold prompt_of. rewrite Hp. reflexivity. }
    rewrite Hprompt.
    destruct (IH (results ++
                    [ {| file_name := cv_file_name cv; scored_cv_data := cv;
                         score := t; recommendation := VStr tier;
                         analysis := a |} ])%list
                 {| calls := calls w ++ [prompt]; slept := slept w |})
      as (new & Hloop & Hall).
    eexists (_ :: new). split.
    + rewrite Hloop. simpl. rewrite <- !app_assoc. reflexivity.
    + constructor; [| exact Hall].
      unfold entry_for. simpl. repeat split; try assumption.
      destruct (llm w prompt) as [content | e]; [apply Hok | apply Hraise]; reflexivity.
Qed.

(** The batch scorer returns, for every input, one entry per CV: the
    entries in input order, then sorted. *)
Lemma batch_score_cvs_spec (jd : string) (cvs : list cv_data) (w : world) :
  exists results : list scored,
    batch_score_cvs float_of_str json_loads llm jd cvs w =
      (Ok (sort_desc score results),
       {| calls := calls w ++ prompts_sent jd cvs; slept := slept w |}) /\
    Forall3 (entry_for float_of_str json_loads) cvs (outcomes llm jd cvs w) results.
Proof.
  destruct (batch_loop_spec jd cvs [] w) as (new & Hloop & Hall).
  exists new. unfold batch_score_cvs. rewrite Hloop. simpl. split; [reflexivity | exact Hall].
Qed.

Lemma entries_in_input_order (cvs : list cv_data) (os : list (result string))
    (results : list scored) :
  Forall3 (entry_for float_of_str json_loads) cvs os results ->
  map scored_cv_data results = cvs /\ map file_name results = map cv_file_name cvs.
Proof.
  induction 1 as [| cv o s cvs os results (Hf & Hc & _) _ [IH1 IH2]]; simpl.
  - split; reflexivity.
  - rewrite Hf, Hc, IH1, IH2. split; reflexivity.
Qed.

(** One entry per candidate, whatever the LLM does. *)
Lemma batch_score_cvs_length (jd : string) (cvs : list cv_data) (w : world) :
  exists (out : list scored) (w' : world),
    batch_score_cvs float_of_str json_loads llm jd cvs w = (Ok out, w') /\
    length out = length cvs.
Proof.
  destruct (batch_score_cvs_spec jd cvs w) as (results & Hb & Hall).
  eexists _, _. split; [exact Hb |].
  rewrite sort_desc_length.
  destruct (entries_in_input_order _ _ _ Hall) as [H _].
  rewrite <- (length_map scored_cv_data results), H. reflexivity.
Qed.


(** The prompts of a batch depend on the job description and the CV
    texts only: two batches that differ in file names send the same
    prompts. *)
Lemma batch_prompts_ignore_file_names (jd : string) (cvs cvs' : list cv_data) (w : world) :
  map cv_text cvs = map cv_text cvs' ->
  calls (snd (batch_score_cvs float_of_str json_loads llm jd cvs w)) =
  calls (snd (batch_score_cvs float_of_str json_loads llm jd cvs' w)).
Proof.
  intros Htexts.
  destruct (batch_score_cvs_spec jd cvs w) as (r & Hb & _).
  destruct (batch_score_cvs_spec jd cvs' w) as (r' & Hb' & _).
  rewrite Hb, Hb'. simpl. f_equal. unfold prompts_sent.
  change (fun cv => prompt_of jd (cv_text cv) 1)
    with (fun cv => (fun t => prompt_of jd t 1) (cv_text cv)).
  rewrite <- !(map_map cv_text (fun t => prompt_of jd t 1)). rewrite Htexts. reflexivity.
Qed.

End BatchTheorems.

(** ** Runs of the batch scorer *)

Section NumberingFacts.
Import Analysis.

Lemma imap_candidate_numbers (l : list raw_cv) :
  forall (k : nat) (g : nat -> raw_cv -> parsed_cv),
    (forall i cv, candidate_number (g i cv) = k + i) ->
    map candidate_number (imap g l) = seq k (length l).
Proof.
  induction l as [| cv l IH]; intros k g Hg; simpl; [reflexivity |].
  rewrite Hg, Nat.add_0_r. f_equal.
  apply IH. intros i cv'. unfold compose. rewrite Hg. lia.
Qed.

(** [analyze_cvs] numbers the candidates 1..N in the order of the list. *)
Lemma number_candidates_numbers (cv_raw_list : list raw_cv) :
  map candidate_number (number_candidates cv_raw_list) = seq 1 (length cv_raw_list).
Proof.
  unfold number_candidates. apply imap_candidate_numbers.
  intros i cv. simpl. lia.
Qed.

End NumberingFacts.

(** C3, on a run.  In a batch of five where the LLM is rate limited at
    the call for the third candidate only, the batch scorer returns five
    entries, four scored and the third tagged ERROR with score 0; but the
    failed call is not retried: five calls are made in all and nothing
    is slept, because [score_cv] turns the exception into the error
    dictionary before the retry wrapper can see it. *)
Theorem batch_of_five_no_retry :
  let run := batch_score_cvs Run.no_float Run.loads_80 Run.llm_third_call_limited
               "Job" Run.five_cvs Run.start in
  rate_limited Run.rate_limit_error /\
  slept (snd run) = [] /\
  length (calls (snd run)) = 5 /\
  match fst run with
  | Ok out =>
      map (fun s => (file_name s, score s, recommendation s)) out =
      [ ("a.pdf", 80%Q, VStr "STRONGLY RECOMMEND");
        ("b.pdf", 80%Q, VStr "STRONGLY RECOMMEND");
        ("d.pdf", 80%Q, VStr "STRONGLY RECOMMEND");
        ("e.pdf", 80%Q, VStr "STRONGLY RECOMMEND");
        ("c.pdf", 0%Q, VStr "ERROR") ]
  | Raise _ => False
  end.
Proof. vm_compute. repeat split. Qed.

(** C7, on a run.  [batch_score_cvs] calls [score_cv] without a candidate
    number, so every prompt of a batch names its subject Candidate #1,
    whatever the position of the CV in the batch. *)
Theorem batch_prompts_all_number_one :
  let run := batch_score_cvs Run.no_float Run.loads_80 Run.llm_third_call_limited
               "Job" Run.five_cvs Run.start in
  map (PyStr.contains "CANDIDATE #1 CV:") (calls (snd run))
    = [true; true; true; true; true] /\
  map (PyStr.contains "Candidate #1>") (calls (snd run))
    = [true; true; true; true; true] /\
  map (PyStr.contains "CANDIDATE #2 CV:") (calls (snd run))
    = [false; false; false; false; false].
Proof. vm_compute. repeat split. Qed.

(** ** The fallback name extractor *)

Section NameTheorems.
Import PyStr CVProcessor NameSpec.

Lemma find_name_find (lines : list string) :
  find_name lines = List.find name_line (map strip lines).
Proof.
  induction lines as [| line rest IH]; [reflexivity |].
  cbn [find_name map List.find]. rewrite IH. unfold name_line.
  destruct (is_empty (strip line) || in_list (upper (strip line)) HEADERS);
    cbn [negb andb]; [reflexivity |].
  destruct (looks_like_name (strip line)); reflexivity.
Qed.

Lemma find_short_find (lines : list string) :
  find_short lines = List.find short_line (map strip lines).
Proof.
  induction lines as [| line rest IH]; [reflexivity |].
  cbn [find_short map List.find]. rewrite IH. unfold short_line.
  destruct (negb (is_empty (strip line)) && (String.length (strip line) <? 50)%nat);
    reflexivity.
Qed.



Example extract_candidate_name_header_then_name :
  extract_candidate_name
    (join_lines ["  Curriculum Vitae "; EmptyString; "Jane A. Doe, PhD"; "jane@example.org"])
  = "Jane A. Doe, PhD".
Proof. reflexivity. Qed.

End NameTheorems.

(** ** The worker pool *)

Section PoolTheorems.
Import Analysis.
Context {T : Type}.

Lemma pool_step_bounded (p q : pool T) :
  pool_step p q ->
  length (in_flight p) <= pool_size p ->
  pool_size q = pool_size p /\ length (in_flight q) <= pool_size q.
Proof.
  intros Hstep Hb. destruct Hstep as [p t r Hq Hlt | p t l1 l2 Hin]; simpl.
  - split; [reflexivity |]. rewrite length_app. simpl. lia.
  - split; [reflexivity |]. rewrite Hin in Hb.
    rewrite length_app in *. simpl in Hb. lia.
Qed.

Lemma pool_steps_bounded (p q : pool T) :
  pool_steps p q ->
  length (in_flight p) <= pool_size p ->
  pool_size q = pool_size p /\ length (in_flight q) <= pool_size q.
Proof.
  induction 1 as [p | p q r Hpq IH Hqr]; intros Hb.
  - split; [reflexivity | exact Hb].
  - destruct (IH Hb) as [Hs Hq].
    destruct (pool_step_bounded q r Hqr Hq) as [Hs' Hr].
    split; [congruence | exact Hr].
Qed.

(** The pool can fill up: as many tasks in flight as it has workers, or
    as there are tasks. *)
Lemma pool_can_start (k : nat) :
  forall (p : pool T),
    in_flight p = [] ->
    k <= pool_size p -> k <= length (queued p) ->
    exists q, pool_steps p q /\ length (in_flight q) = k /\
              length (queued q) = length (queued p) - k /\
              pool_size q = pool_size p.
Proof.
  induction k as [| k IH]; intros p Hin Hk Hq.
  - exists p. rewrite Hin. repeat split; [constructor | simpl; lia].
  - destruct (IH p Hin ltac:(lia) ltac:(lia)) as (q & Hsteps & Hlen & Hqueue & Hsize).
    destruct (queued q) as [| t rest] eqn:Eq; [simpl in Hqueue; lia |].
    eexists. split.
    + eapply steps_step; [exact Hsteps |].
      apply (step_start q t rest Eq). lia.
    + simpl. rewrite length_app. simpl. simpl in Hqueue. repeat split; lia.
Qed.

End PoolTheorems.

(** C8. The scoring tasks of a batch of n candidates run on a pool of
    min(5, n) workers: in every state the executor reaches, the number
    of scoring calls in flight is at most min(5, n), so never more than
    5 and never more than n, and the pool can be full, with min(5, n)
    calls in flight at once; a batch of 7 gets 5 workers and a batch of 3
    gets 3. *)
Theorem scoring_pool_size (parsed_cv_list : list Analysis.parsed_cv)
    (p0 p : Analysis.pool Analysis.parsed_cv) :
  Analysis.scoring_pool parsed_cv_list = Ok p0 ->
  Analysis.pool_steps p0 p ->
  Analysis.pool_size p = Nat.min 5 (length parsed_cv_list) /\
  length (Analysis.in_flight p) <= Nat.min 5 (length parsed_cv_list) /\
  length (Analysis.in_flight p) <= 5 /\
  length (Analysis.in_flight p) <= length parsed_cv_list /\
  (exists q, Analysis.pool_steps p0 q /\
             length (Analysis.in_flight q) = Nat.min 5 (length parsed_cv_list)) /\
  Analysis.max_workers 7 = 5 /\
  Analysis.max_workers 3 = 3.
Proof.
  intros Hpool Hsteps.
  assert (H7 : Analysis.max_workers 7 = 5) by reflexivity.
  assert (H3 : Analysis.max_workers 3 = 3) by reflexivity.
  unfold Analysis.scoring_pool, Analysis.ThreadPoolExecutor in Hpool.
  unfold Analysis.max_workers in Hpool.
  remember (Nat.min 5 (length parsed_cv_list)) as N eqn:HN.
  destruct (N =? 0)%nat; [discriminate Hpool |].
  injection Hpool as <-.
  destruct (pool_steps_bounded _ _ Hsteps) as [Hs Hb];
    [cbn [Analysis.submit_all Analysis.in_flight length]; lia |].
  cbn [Analysis.submit_all Analysis.pool_size] in Hs. rewrite Hs in Hb.
  split; [exact Hs |]. split; [exact Hb |].
  split; [lia |]. split; [lia |].
  split; [| split; assumption].
  destruct (pool_can_start N
              (Analysis.submit_all parsed_cv_list
                 {| Analysis.pool_size := N;
                    Analysis.queued := []; Analysis.in_flight := [];
                    Analysis.completed := [] |}))
    as (q & Hq & Hlen & _);
    [ reflexivity
    | cbn [Analysis.submit_all Analysis.pool_size]; lia
    | cbn [Analysis.submit_all Analysis.queued app]; lia |].
  exists q. split; [exact Hq | exact Hlen].
Qed.

Lemma scoring_pool_size_witness :
  exists p0 p : Analysis.pool Analysis.parsed_cv,
    Analysis.scoring_pool Run.seven_candidates = Ok p0 /\
    Analysis.pool_steps p0 p /\
    Analysis.pool_size p = 5 /\
    length (Analysis.in_flight p) <= 5.
Proof.
  pose (p0 := Analysis.submit_all Run.seven_candidates
                {| Analysis.pool_size := 5; Analysis.queued := [];
                   Analysis.in_flight := []; Analysis.completed := [] |}).
  assert (H0 : Analysis.scoring_pool Run.seven_candidates = Ok p0) by reflexivity.
  destruct (Analysis.queued p0) as [| t q] eqn:Eq; [discriminate Eq |].
  pose (p1 := {| Analysis.pool_size := Analysis.pool_size p0; Analysis.queued := q;
                 Analysis.in_flight := (Analysis.in_flight p0 ++ [t])%list;
                 Analysis.completed := Analysis.completed p0 |}).
  assert (H1 : Analysis.pool_steps p0 p1).
  { eapply Analysis.steps_step; [apply Analysis.steps_refl |].
    apply (Analysis.step_start p0 t q Eq). simpl. lia. }
  destruct (scoring_pool_size Run.seven_candidates p0 p1 H0 H1) as (Hs & _ & Hb & _).
  exists p0, p1. repeat split; assumption.
Defined.

(** * Further properties of the code *)

(** ** The weighted score *)

Section ScorerMore.
Import Py PyFacts ScorerFacts.

Variable float_of_str : string -> option Q.

Lemma assoc_last_some (k : string) (l : list (string * value)) (acc : option value) :
  is_Some (assoc_last k l acc) <-> is_Some acc \/ In k (map fst l).
Proof.
  revert acc. induction l as [| [k' v] l IH]; intros acc; simpl.
  - tauto.
  - rewrite IH. destruct (String.eqb_spec k' k) as [-> | Hne].
    + split; [intros _; right; left; reflexivity | intros _; left; eexists; reflexivity].
    + tauto.
Qed.

Lemma dict_literal_keys (l : list (string * value)) (k : string) :
  is_Some (dict_literal l !! k) <-> In k (map fst l).
Proof.
  rewrite dict_literal_lookup, assoc_last_some. split; [| tauto].
  intros [[x Hx] | H]; [discriminate Hx | exact H].
Qed.

(** The [try] block, when no statement of it raises, returns the
    dictionary of the clamped sub-scores. *)
Lemma weighted_try_dict (d : gmap string value) (e i s ed c : Q) :
  raw_scores float_of_str d e i s ed c ->
  weighted_try float_of_str d =
  Some (weighted_dict (Py.max 0 (Py.min 100 e)) (Py.max 0 (Py.min 100 i))
          (Py.max 0 (Py.min 100 s)) (Py.max 0 (Py.min 100 ed))
          (Py.max 0 (Py.min 100 c))).
Proof.
  intros (He & Hi & Hs & Hed & Hc).
  unfold weighted_try. rewrite He, Hi, Hs, Hed, Hc. simpl.
  destruct weights_lookup as (W1 & W2 & W3 & W4 & W5).
  rewrite W1, W2, W3, W4, W5. reflexivity.
Qed.

Lemma weighted_dict_comp (e i s ed c e' i' s' ed' c' : Q) :
  (e == e')%Q -> (i == i')%Q -> (s == s')%Q -> (ed == ed')%Q -> (c == c')%Q ->
  weighted_dict e i s ed c = weighted_dict e' i' s' ed' c'.
Proof.
  intros He Hi Hs Hed Hc. unfold weighted_dict. cbv zeta.
  assert (Ht : (e * (3 # 10) + i * (2 # 10) + s * (2 # 10) + ed * (2 # 10) + c * (1 # 10)
                == e' * (3 # 10) + i' * (2 # 10) + s' * (2 # 10) + ed' * (2 # 10)
                   + c' * (1 # 10))%Q).
  { rewrite He, Hi, Hs, Hed, Hc. reflexivity. }
  rewrite (round1_comp _ _ Ht), (recommendation_of_comp _ _ Ht).
  rewrite (round1_comp e e' He), (round1_comp i i' Hi), (round1_comp s s' Hs),
    (round1_comp ed ed' Hed), (round1_comp c c' Hc).
  rewrite (round1_comp (e * (3 # 10)) (e' * (3 # 10))) by (rewrite He; reflexivity).
  rewrite (round1_comp (i * (2 # 10)) (i' * (2 # 10))) by (rewrite Hi; reflexivity).
  rewrite (round1_comp (s * (2 # 10)) (s' * (2 # 10))) by (rewrite Hs; reflexivity).
  rewrite (round1_comp (ed * (2 # 10)) (ed' * (2 # 10))) by (rewrite Hed; reflexivity).
  rewrite (round1_comp (c * (1 # 10)) (c' * (1 # 10))) by (rewrite Hc; reflexivity).
  reflexivity.
Qed.

(** The result for a numeric rubric, in terms of the clamp. *)
Lemma calculate_weighted_score_dict (d : gmap string value) (e i s ed c : Q) :
  raw_scores float_of_str d e i s ed c ->
  calculate_weighted_score float_of_str d =
  weighted_dict (clamp e) (clamp i) (clamp s) (clamp ed) (clamp c).
Proof.
  intros Hraw. unfold calculate_weighted_score.
  rewrite (weighted_try_dict d e i s ed c Hraw).
  apply weighted_dict_comp; apply max_min_clamp.
Qed.

(** X1. One sub-score that is present but not a number (a JSON null, a
    list, a string that is no number) discards the whole rubric: the
    result is the default dictionary, score 50 and CONSIDER, whatever the
    other four sub-scores are. *)
Theorem non_numeric_score_discards_rubric (d : gmap string value) :
  some_score_not_numeric float_of_str d ->
  calculate_weighted_score float_of_str d = default_scores /\
  calculate_weighted_score float_of_str d !! "score" = Some (VNum 50) /\
  calculate_weighted_score float_of_str d !! "recommendation" = Some (VStr "CONSIDER").
Proof.
  intros Hbad.
  assert (Hnone : weighted_try float_of_str d = None).
  { destruct (weighted_try_cases float_of_str d)
      as [(e & i & s & ed & c & He & Hi & Hs & Hed & Hc) | Hnone]; [| exact Hnone].
    destruct Hbad as [H | [H | [H | [H | H]]]]; congruence. }
  unfold calculate_weighted_score. rewrite Hnone.
  repeat split.
Qed.


(** The keys of a result are the twelve computed ones, on the normal and
    on the error path alike. *)
Lemma calculate_weighted_score_keys (d : gmap string value) (k : string) :
  is_Some (calculate_weighted_score float_of_str d !! k) <-> In k weighted_keys.
Proof.
  destruct (weighted_try_cases float_of_str d) as [(e & i & s & ed & c & Hraw) | Hnone].
  - rewrite (calculate_weighted_score_dict d e i s ed c Hraw).
    unfold weighted_dict. cbv zeta. rewrite dict_literal_keys. reflexivity.
  - unfold calculate_weighted_score. rewrite Hnone.
    unfold default_scores. rewrite dict_literal_keys. reflexivity.
Qed.

End ScorerMore.

Lemma non_numeric_score_discards_rubric_witness :
  calculate_weighted_score Run.no_float
    (dict_literal
       [ ("experience_score", VNum 90); ("impact_score", VNum 90);
         ("skills_score", VNone); ("education_score", VNum 90);
         ("certs_extras_score", VNum 90) ]) !! "score" = Some (VNum 50).
Proof.
  apply (non_numeric_score_discards_rubric Run.no_float).
  right. right. left. reflexivity.
Defined.


Section ScorerOrder.
Import Py PyFacts ScorerFacts.

Variable float_of_str : string -> option Q.

Lemma round_half_even_floor (x : Q) :
  (Qfloor x <= round_half_even x <= Qfloor x + 1)%Z.
Proof.
  unfold round_half_even.
  destruct (x - inject_Z (Qfloor x) ?= 1 # 2)%Q; [destruct (Z.even _) | |]; lia.
Qed.

(** Rounding to the nearest integer is monotone. *)
Lemma round_half_even_mono (x y : Q) :
  (x <= y)%Q -> (round_half_even x <= round_half_even y)%Z.
Proof.
  intros Hxy. pose proof (Qfloor_resp_le _ _ Hxy) as Hf.
  destruct (Z.eq_dec (Qfloor x) (Qfloor y)) as [E | E].
  - unfold round_half_even. rewrite <- E.
    destruct (Qcompare_spec (x - inject_Z (Qfloor x)) (1 # 2)) as [Hx | Hx | Hx];
    destruct (Qcompare_spec (y - inject_Z (Qfloor x)) (1 # 2)) as [Hy | Hy | Hy];
      try (destruct (Z.even (Qfloor x))); try lia; exfalso; lra.
  - pose proof (round_half_even_floor x). pose proof (round_half_even_floor y). lia.
Qed.

Lemma round1_mono (x y : Q) : (x <= y)%Q -> (round1 x <= round1 y)%Q.
Proof.
  intros Hxy. unfold round1. rewrite !Qred_correct.
  assert (H : (x * 10 <= y * 10)%Q) by lra.
  apply round_half_even_mono in H. unfold Qle. simpl. lia.
Qed.

Lemma clamp_mono (x y : Q) : (x <= y)%Q -> (clamp x <= clamp y)%Q.
Proof.
  intros Hxy. unfold clamp.
  destruct (Qlt_le_dec x 0), (Qlt_le_dec y 0); try lra;
    destruct (Qlt_le_dec 100 x), (Qlt_le_dec 100 y); lra.
Qed.

Lemma weighted_dict_score (e i s ed c : Q) :
  weighted_dict e i s ed c !! "score" =
    Some (VNum (round1 (e * (3 # 10) + i * (2 # 10) + s * (2 # 10) + ed * (2 # 10)
                        + c * (1 # 10)))) /\
  weighted_dict e i s ed c !! "recommendation" =
    Some (VStr (recommendation_of (e * (3 # 10) + i * (2 # 10) + s * (2 # 10)
                                   + ed * (2 # 10) + c * (1 # 10)))).
Proof.
  unfold weighted_dict. cbv zeta. rewrite !dict_literal_lookup. split; reflexivity.
Qed.


(** The tier of a total, with the band the total lies in. *)
Lemma recommendation_of_band (t : Q) :
  (recommendation_of t = "STRONGLY RECOMMEND" /\ (80 <= t)%Q) \/
  (recommendation_of t = "RECOMMEND" /\ (60 <= t < 80)%Q) \/
  (recommendation_of t = "CONSIDER" /\ (40 <= t < 60)%Q) \/
  (recommendation_of t = "REJECT" /\ (t < 40)%Q).
Proof.
  assert (Hgt : forall a b : Q, Qle_bool a b = false -> (b < a)%Q).
  { intros a b H. destruct (Qlt_le_dec b a) as [Hlt | Hle]; [exact Hlt |].
    apply Qle_bool_iff in Hle. congruence. }
  unfold recommendation_of.
  destruct (Qle_bool 80 t) eqn:E80.
  { apply Qle_bool_iff in E80. left. split; [reflexivity | exact E80]. }
  destruct (Qle_bool 60 t) eqn:E60.
  { apply Qle_bool_iff in E60. apply Hgt in E80. right. left.
    split; [reflexivity | split; assumption]. }
  destruct (Qle_bool 40 t) eqn:E40.
  { apply Qle_bool_iff in E40. apply Hgt in E60. right. right. left.
    split; [reflexivity | split; assumption]. }
  apply Hgt in E40. right. right. right. split; [reflexivity | exact E40].
Qed.

Lemma weighted_dict_in_tier (e i s ed c : Q) :
  (0 <= e <= 100)%Q -> (0 <= i <= 100)%Q -> (0 <= s <= 100)%Q ->
  (0 <= ed <= 100)%Q -> (0 <= c <= 100)%Q ->
  exists (t : Q) (tier : string),
    weighted_dict e i s ed c !! "score" = Some (VNum t) /\
    weighted_dict e i s ed c !! "recommendation" = Some (VStr tier) /\
    score_in_tier t tier.
Proof.
  intros He Hi Hs Hed Hc.
  destruct (weighted_dict_score e i s ed c) as [Hscore Hrec].
  eexists _, _. split; [exact Hscore |]. split; [exact Hrec |].
  set (T := (e * (3 # 10) + i * (2 # 10) + s * (2 # 10) + ed * (2 # 10) + c * (1 # 10))%Q).
  assert (HT : (0 <= T <= 100)%Q) by (unfold T; lra).
  unfold score_in_tier.
  destruct (recommendation_of_band T) as [[-> H] | [[-> H] | [[-> H] | [-> H]]]].
  - left. split; [reflexivity |].
    destruct (round1_bounds 800 1000 T) as [Ha Hb]; [lra | lra |]. lra.
  - right. left. split; [reflexivity |].
    destruct (round1_bounds 600 800 T) as [Ha Hb]; [lra | lra |]. lra.
  - right. right. left. split; [reflexivity |].
    destruct (round1_bounds 400 600 T) as [Ha Hb]; [lra | lra |]. lra.
  - right. right. right. split; [reflexivity |].
    destruct (round1_bounds 0 400 T) as [Ha Hb]; [lra | lra |]. lra.
Qed.

(** Every result carries a numeric score and one of the four tiers, the
    score within the band of the tier. *)
Lemma calculate_weighted_score_in_tier (d : gmap string value) :
  exists (t : Q) (tier : string),
    calculate_weighted_score float_of_str d !! "score" = Some (VNum t) /\
    calculate_weighted_score float_of_str d !! "recommendation" = Some (VStr tier) /\
    score_in_tier t tier.
Proof.
  destruct (weighted_try_cases float_of_str d) as [(e & i & s & ed & c & Hraw) | Hnone].
  - rewrite (calculate_weighted_score_dict float_of_str d e i s ed c Hraw).
    apply weighted_dict_in_tier; apply clamp_range.
  - unfold calculate_weighted_score. rewrite Hnone.
    exists 50%Q, "CONSIDER". split; [reflexivity |]. split; [reflexivity |].
    right. right. left. split; [reflexivity | lra].
Qed.

(** X4. The returned score and the returned tier agree, for every rubric:
    the tier is one of the four, and the score, although rounded after
    the tier is chosen, is never outside the band of the tier (at least
    80 for STRONGLY RECOMMEND, 60 to 80 for RECOMMEND, 40 to 60 for
    CONSIDER, at most 40 for REJECT). *)
Theorem score_within_tier_band (d : gmap string value) :
  exists (t : Q) (tier : string),
    calculate_weighted_score float_of_str d !! "score" = Some (VNum t) /\
    calculate_weighted_score float_of_str d !! "recommendation" = Some (VStr tier) /\
    score_in_tier t tier.
Proof.
  destruct (weighted_try_cases float_of_str d) as [(e & i & s & ed & c & Hraw) | Hnone].
  - rewrite (calculate_weighted_score_dict float_of_str d e i s ed c Hraw).
    pose proof (clamp_range e). pose proof (clamp_range i). pose proof (clamp_range s).
    pose proof (clamp_range ed). pose proof (clamp_range c).
    apply weighted_dict_in_tier; assumption.
  - unfold calculate_weighted_score. rewrite Hnone.
    exists 50%Q, "CONSIDER".
    split; [reflexivity |]. split; [reflexivity |].
    unfold score_in_tier. right. right. left. split; [reflexivity | lra].
Qed.

End ScorerOrder.


(** ** Finding the JSON object in a response *)

Section SearchFacts.
Import PyStr.

Lemma append_cons (c : ascii) (s t : string) : String c s ++ t = String c (s ++ t).
Proof. reflexivity. Qed.

Lemma append_nil_l (t : string) : EmptyString ++ t = t.
Proof. reflexivity. Qed.

Lemma append_assoc (a b c : string) : (a ++ b) ++ c = a ++ (b ++ c).
Proof.
  induction a as [| x a IH]; [reflexivity |].
  rewrite !append_cons, IH. reflexivity.
Qed.

Lemma no_char_cons (c x : ascii) (s : string) :
  no_char c (String x s) <-> Ascii.eqb x c = false /\ no_char c s.
Proof.
  unfold no_char. simpl. rewrite andb_true_iff, negb_true_iff. reflexivity.
Qed.

Lemma from_first_app (c : ascii) (pre s : string) :
  no_char c pre -> from_first c (pre ++ String c s) = Some (String c s).
Proof.
  induction pre as [| x pre IH]; intros H.
  - rewrite append_nil_l. simpl. rewrite Ascii.eqb_refl. reflexivity.
  - apply no_char_cons in H as [Hx H]. rewrite append_cons. simpl. rewrite Hx.
    apply IH, H.
Qed.

Lemma upto_last_none (c : ascii) (s : string) : no_char c s -> upto_last c s = None.
Proof.
  induction s as [| x s IH]; intros H; [reflexivity |].
  apply no_char_cons in H as [Hx H]. simpl. rewrite (IH H), Hx. reflexivity.
Qed.

Lemma upto_last_app (c : ascii) (body post : string) :
  no_char c post ->
  upto_last c (body ++ String c post) = Some (body ++ String c EmptyString).
Proof.
  intros H. induction body as [| x body IH].
  - rewrite !append_nil_l. simpl. rewrite (upto_last_none c post H), Ascii.eqb_refl.
    reflexivity.
  - rewrite !append_cons. simpl. rewrite IH. reflexivity.
Qed.

Lemma from_first_split (c : ascii) (s r : string) :
  from_first c s = Some r ->
  exists pre r', s = pre ++ r /\ r = String c r' /\ no_char c pre.
Proof.
  revert r. induction s as [| x s IH]; intros r H; [discriminate H |].
  simpl in H. destruct (Ascii.eqb x c) eqn:E.
  - injection H as <-. apply Ascii.eqb_eq in E as ->.
    exists EmptyString, s. repeat split.
  - destruct (IH r H) as (pre & r' & -> & -> & Hpre).
    exists (String x pre), r'. split; [reflexivity |]. split; [reflexivity |].
    apply no_char_cons. split; assumption.
Qed.

Lemma upto_last_split (c : ascii) (s p : string) :
  upto_last c s = Some p ->
  exists body post,
    p = body ++ String c EmptyString /\ s = p ++ post /\ no_char c post.
Proof.
  revert p. induction s as [| x s IH]; intros p H; [discriminate H |].
  simpl in H. destruct (upto_last c s) as [q |] eqn:Eq.
  - injection H as <-. destruct (IH q eq_refl) as (body & post & -> & -> & Hpost).
    exists (String x body), post. repeat split. exact Hpost.
  - destruct (Ascii.eqb x c) eqn:E; [| discriminate H].
    injection H as <-. apply Ascii.eqb_eq in E as ->.
    exists EmptyString, s. split; [reflexivity |]. split; [reflexivity |].
    clear IH. induction s as [| y s IHs]; [reflexivity |].
    simpl in Eq. destruct (upto_last c s) as [q |]; [discriminate Eq |].
    destruct (Ascii.eqb y c) eqn:Ey; [discriminate Eq |].
    apply no_char_cons. split; [exact Ey | apply IHs; reflexivity].
Qed.

(** A closing character somewhere in the text gives a last one. *)
Lemma upto_last_some (c : ascii) (a b : string) :
  is_Some (upto_last c (a ++ String c b)).
Proof.
  induction a as [| x a IH].
  - rewrite append_nil_l. simpl.
    destruct (upto_last c b); [eexists; reflexivity |].
    rewrite Ascii.eqb_refl. eexists. reflexivity.
  - rewrite append_cons. simpl. destruct IH as [p ->]. eexists. reflexivity.
Qed.

(** X5. A JSON object embedded in prose is found: when no opening brace
    comes before it and no closing brace after it, the search returns the
    object, from its opening to its closing brace, whatever its body
    (nested braces included), and drops the prose around it. *)
Theorem search_braces_embedded (pre body post : string) :
  no_char "{"%char pre -> no_char "}"%char post ->
  search_braces (pre ++ braced body ++ post) = Some (braced body).
Proof.
  intros Hpre Hpost. unfold search_braces, braced.
  rewrite append_cons, (from_first_app "{"%char pre _ Hpre).
  rewrite append_assoc, append_cons, append_nil_l.
  rewrite (upto_last_app "}"%char body post Hpost). reflexivity.
Qed.

(** X6. The search is greedy and exact: it finds a match exactly when a
    closing brace follows an opening brace somewhere in the response, and
    the match then runs from the first opening brace of the response to
    its last closing brace. *)
Theorem search_braces_span (s : string) :
  (is_Some (search_braces s) <->
   exists a b c, s = a ++ String "{"%char (b ++ String "}"%char c)) /\
  (forall m, search_braces s = Some m ->
     exists pre body post,
       s = pre ++ m ++ post /\ m = braced body /\
       no_char "{"%char pre /\ no_char "}"%char post).
Proof.
  split; [split |].
  - intros [m Hm]. unfold search_braces in Hm.
    destruct (from_first "{"%char s) as [[| x rest] |] eqn:Ef; try discriminate Hm.
    destruct (upto_last "}"%char rest) as [p |] eqn:Eu; [| discriminate Hm].
    destruct (from_first_split _ _ _ Ef) as (pre & r' & -> & Hr & _).
    injection Hr as -> ->.
    destruct (upto_last_split _ _ _ Eu) as (body & post & -> & -> & _).
    exists pre, body, post. rewrite append_assoc, append_cons, append_nil_l. reflexivity.
  - intros (a & b & c & ->).
    assert (H : exists r, from_first "{"%char (a ++ String "{"%char (b ++ String "}"%char c))
                          = Some (String "{"%char r)
                          /\ is_Some (upto_last "}"%char r)).
    { induction a as [| x a IH].
      - rewrite append_nil_l. simpl. eexists. split; [reflexivity |].
        apply upto_last_some.
      - rewrite append_cons. simpl. destruct (Ascii.eqb x "{"%char) eqn:E.
        + apply Ascii.eqb_eq in E as ->. eexists. split; [reflexivity |].
          rewrite <- append_cons, <- append_assoc. apply upto_last_some.
        + exact IH. }
    destruct H as (r & Hf & [p Hp]). unfold search_braces. rewrite Hf, Hp.
    eexists. reflexivity.
  - intros m Hm. unfold search_braces in Hm.
    destruct (from_first "{"%char s) as [[| x rest] |] eqn:Ef; try discriminate Hm.
    destruct (upto_last "}"%char rest) as [p |] eqn:Eu; [| discriminate Hm].
    injection Hm as <-.
    destruct (from_first_split _ _ _ Ef) as (pre & r' & -> & Hr & Hpre).
    injection Hr as -> ->.
    destruct (upto_last_split _ _ _ Eu) as (body & post & -> & -> & Hpost).
    exists pre, body, post. unfold braced.
    rewrite !append_cons. repeat split; assumption.
Qed.

End SearchFacts.

Lemma search_braces_embedded_witness :
  PyStr.search_braces ("here is the analysis: " ++ braced "a: {b}" ++ " thanks")
  = Some (braced "a: {b}").
Proof.
  apply (search_braces_embedded "here is the analysis: " "a: {b}" " thanks");
    reflexivity.
Defined.

Lemma search_braces_span_witness :
  exists pre body post,
    "x {a} y {b} z" = pre ++ "{a} y {b}" ++ post /\ "{a} y {b}" = braced body /\
    no_char "{"%char pre /\ no_char "}"%char post.
Proof.
  destruct (search_braces_span "x {a} y {b} z") as [_ H].
  apply H. reflexivity.
Defined.

(** ** What a response is turned into *)

Section ParseMore.
Import Py PyFacts PyStr.

Variable float_of_str : string -> option Q.
Variable json_loads : string -> result (gmap string value).
Variable llm : world -> string -> result string.

Lemma parse_in_tier (json_str : string) :
  exists (t : Q) (tier : string),
    parse_score_from_json float_of_str json_loads json_str !! "score" = Some (VNum t) /\
    parse_score_from_json float_of_str json_loads json_str !! "recommendation"
      = Some (VStr tier) /\
    score_in_tier t tier.
Proof.
  assert (Hdefault : score_in_tier 50 "CONSIDER").
  { right. right. left. split; [reflexivity | lra]. }
  unfold parse_score_from_json.
  destruct (search_braces json_str) as [m |].
  - destruct (json_loads m) as [d | e].
    + destruct (calculate_weighted_score_in_tier float_of_str d)
        as (t & tier & Hs & Hr & Hband).
      exists t, tier. rewrite !dict_merge_lookup, Hs, Hr. repeat split. exact Hband.
    + exists 50%Q, "CONSIDER". rewrite !parse_fallback_lookup. repeat split. exact Hdefault.
  - exists 50%Q, "CONSIDER". rewrite !parse_fallback_lookup. repeat split. exact Hdefault.
Qed.

Lemma score_in_tier_not_error (t : Q) : ~ score_in_tier t "ERROR".
Proof.
  intros [[H _] | [[H _] | [[H _] | [H _]]]]; discriminate H.
Qed.

Lemma score_in_tier_percent (t : Q) (tier : string) :
  score_in_tier t tier -> (0 <= t <= 100)%Q.
Proof.
  intros [[_ H] | [[_ H] | [[_ H] | [_ H]]]]; lra.
Qed.

(** X7. When the embedded JSON parses, everything the LLM returned under
    other keys than the twelve computed ones is kept as it is: reasons,
    strengths, weaknesses, red flags, summary, and any key outside the
    schema. *)
Theorem parse_keeps_other_keys (json_str json_match : string)
    (json_data : gmap string value) (k : string) :
  search_braces json_str = Some json_match ->
  json_loads json_match = Ok json_data ->
  ~ In k weighted_keys ->
  parse_score_from_json float_of_str json_loads json_str !! k = json_data !! k.
Proof.
  intros Hm Hj Hk. unfold parse_score_from_json. rewrite Hm, Hj.
  rewrite dict_merge_lookup.
  destruct (calculate_weighted_score float_of_str json_data !! k) as [v |] eqn:E;
    [| reflexivity].
  exfalso. apply Hk.
  apply (calculate_weighted_score_keys float_of_str json_data k). eexists. exact E.
Qed.

(** X8. [score_cv] returns the ERROR tier exactly when the LLM call
    raised: an answer, parseable or not, always gets one of the four
    tiers and a score in [0,100], and an exception always gets ERROR and
    score 0. *)
Theorem error_tier_iff_llm_raised (jd cv : string) (n : nat) (w : world) (prompt : string) :
  scoring_prompt jd cv n = Some prompt ->
  exists (a : gmap string value) (t : Q) (tier : string),
    fst (score_cv float_of_str json_loads llm jd cv n w) = Ok a /\
    a !! "score" = Some (VNum t) /\
    a !! "recommendation" = Some (VStr tier) /\
    (0 <= t <= 100)%Q /\
    (tier = "ERROR" <-> exists e, llm w prompt = Raise e) /\
    (tier = "ERROR" -> t = 0%Q).
Proof.
  intros Hp.
  destruct (score_cv_body_spec float_of_str json_loads llm jd cv n w)
    as (prompt' & Hp' & H).
  assert (prompt' = prompt) by congruence. subst prompt'.
  rewrite score_cv_is_body, H. simpl.
  destruct (llm w prompt) as [content | e].
  - destruct (parse_in_tier content) as (t & tier & Hs & Hr & Hband).
    exists (parse_score_from_json float_of_str json_loads content), t, tier.
    repeat split; try assumption; try apply (score_in_tier_percent t tier Hband).
    + intros ->. exfalso. exact (score_in_tier_not_error t Hband).
    + intros (e & He). discriminate He.
    + intros ->. exfalso. exact (score_in_tier_not_error t Hband).
  - exists (error_result e), 0%Q, "ERROR".
    repeat split; try lra. intros _. exists e. reflexivity.
Qed.

Lemma entry_for_tiered (cv : cv_data) (o : result string) (s : scored) :
  entry_for float_of_str json_loads cv o s -> entry_tiered s.
Proof.
  intros (_ & _ & Ha & Hs & Hr). unfold entry_tiered.
  destruct o as [content | e].
  - destruct (parse_in_tier content) as (t & tier & Hs' & Hr' & Hband).
    rewrite Ha, Hs' in Hs. rewrite Ha, Hr' in Hr.
    injection Hs as <-. injection Hr as <-.
    exists tier. split; [reflexivity | right; exact Hband].
  - rewrite Ha in Hs, Hr.
    assert (Hs0 : error_result e !! "score" = Some (VNum 0)) by reflexivity.
    assert (Hr0 : error_result e !! "recommendation" = Some (VStr "ERROR")) by reflexivity.
    rewrite Hs0 in Hs. rewrite Hr0 in Hr. injection Hs as <-. injection Hr as <-.
    exists "ERROR". split; [reflexivity | left; split; reflexivity].
Qed.

Lemma entries_tiered (cvs : list cv_data) (os : list (result string))
    (results : list scored) :
  Forall3 (entry_for float_of_str json_loads) cvs os results ->
  Forall entry_tiered results.
Proof.
  induction 1 as [| cv o s cvs os results He _ IH]; constructor.
  - exact (entry_for_tiered cv o s He).
  - exact IH.
Qed.

(** The batch result: sorted, one tiered entry per CV. *)
Lemma batch_score_cvs_ranked (jd : string) (cvs : list cv_data) (w : world) :
  exists out : list scored,
    batch_score_cvs float_of_str json_loads llm jd cvs w =
      (Ok out, {| calls := calls w ++ prompts_sent jd cvs; slept := slept w |}) /\
    length out = length cvs /\
    StronglySorted (key_ge score) out /\
    Forall entry_tiered out.
Proof.
  destruct (batch_score_cvs_spec float_of_str json_loads llm jd cvs w)
    as (results & Hb & Hall).
  exists (sort_desc score results). split; [exact Hb |].
  split.
  { rewrite sort_desc_length.
    destruct (entries_in_input_order _ _ _ _ _ Hall) as [H _].
    rewrite <- (length_map scored_cv_data results), H. reflexivity. }
  split; [apply sort_desc_sorted |].
  apply (Permutation_Forall (sort_desc_perm score results)).
  exact (entries_tiered _ _ _ Hall).
Qed.

(** X9. A batch costs exactly one LLM call per CV, made in input order
    with the prompt of that CV, and no sleep, whatever the LLM answers or
    raises; and it returns a list, one entry per CV, never an exception. *)
Theorem batch_one_call_per_cv (jd : string) (cvs : list cv_data) (w : world) :
  exists out : list scored,
    fst (batch_score_cvs float_of_str json_loads llm jd cvs w) = Ok out /\
    length out = length cvs /\
    calls (snd (batch_score_cvs float_of_str json_loads llm jd cvs w))
      = (calls w ++ prompts_sent jd cvs)%list /\
    length (calls (snd (batch_score_cvs float_of_str json_loads llm jd cvs w)))
      = length (calls w) + length cvs /\
    slept (snd (batch_score_cvs float_of_str json_loads llm jd cvs w)) = slept w /\
    Forall2 (fun cv p => scoring_prompt jd (cv_text cv) 1 = Some p)
      cvs (prompts_sent jd cvs).
Proof.
  assert (Hprompts : Forall2 (fun cv p => scoring_prompt jd (cv_text cv) 1 = Some p)
                       cvs (prompts_sent jd cvs)).
  { unfold prompts_sent. induction cvs as [| cv rest IH]; simpl; constructor.
    - unfold prompt_of.
      destruct (scoring_prompt_some jd (cv_text cv) 1) as [p Hp]. rewrite Hp. reflexivity.
    - exact IH. }
  destruct (batch_score_cvs_ranked jd cvs w) as (out & Hb & Hlen & _).
  exists out. rewrite Hb. simpl.
  split; [reflexivity |]. split; [exact Hlen |]. split; [reflexivity |].
  split.
  { rewrite length_app. unfold prompts_sent. rewrite length_map. reflexivity. }
  split; [reflexivity | exact Hprompts].
Qed.

End ParseMore.

Lemma parse_keeps_other_keys_witness :
  parse_score_from_json Run.no_float
    (fun _ => Ok (dict_literal [("summary", VStr "A strong match"); ("score", VNum 99)]))
    "Result: {...}" !! "summary" = Some (VStr "A strong match").
Proof.
  rewrite (parse_keeps_other_keys Run.no_float
             (fun _ => Ok (dict_literal [("summary", VStr "A strong match");
                                         ("score", VNum 99)]))
             "Result: {...}" "{...}"
             (dict_literal [("summary", VStr "A strong match"); ("score", VNum 99)])
             "summary" eq_refl eq_refl).
  - reflexivity.
  - unfold weighted_keys. simpl. intros H.
    repeat (destruct H as [H | H]; [discriminate H |]). exact H.
Defined.

Lemma error_tier_iff_llm_raised_witness :
  exists (a : gmap string value) (t : Q) (tier : string),
    fst (score_cv Run.no_float Run.loads_80 Run.llm_third_call_limited
           "Job" "CV" 1 {| calls := ["p1"; "p2"]; slept := [] |}) = Ok a /\
    a !! "score" = Some (VNum t) /\
    a !! "recommendation" = Some (VStr tier) /\
    (0 <= t <= 100)%Q /\
    (tier = "ERROR" <->
     exists e, Run.llm_third_call_limited {| calls := ["p1"; "p2"]; slept := [] |}
                 (prompt_of "Job" "CV" 1) = Raise e) /\
    (tier = "ERROR" -> t = 0%Q).
Proof.
  apply (error_tier_iff_llm_raised Run.no_float Run.loads_80 Run.llm_third_call_limited
           "Job" "CV" 1 {| calls := ["p1"; "p2"]; slept := [] |} (prompt_of "Job" "CV" 1)).
  vm_compute. reflexivity.
Defined.

(** ** The ranked list *)

Section RankingFacts.

Lemma slice_to_prefix {A : Type} (n : Z) (l : list A) :
  exists rest, l = (slice_to n l ++ rest)%list.
Proof.
  unfold slice_to. destruct (0 <=? n)%Z.
  - exists (drop (Z.to_nat n) l). symmetry. apply take_drop.
  - exists (drop (length l - Z.to_nat (- n)) l). symmetry. apply take_drop.
Qed.

Lemma slice_to_length {A : Type} (n : Z) (l : list A) :
  length (slice_to n l) =
  if (0 <=? n)%Z then Nat.min (Z.to_nat n) (length l)
  else length l - Z.to_nat (- n).
Proof.
  unfold slice_to. destruct (0 <=? n)%Z; rewrite length_take; lia.
Qed.

Lemma sorted_app_ge {A : Type} (key : A -> Q) (a b : list A) :
  StronglySorted (key_ge key) (a ++ b) ->
  forall x y, In x a -> In y b -> (key y <= key x)%Q.
Proof.
  induction a as [| z a IH]; intros Hs x y Hx Hy; [destruct Hx |].
  simpl in Hs. apply StronglySorted_inv in Hs as [Hs Hall].
  destruct Hx as [-> | Hx].
  - rewrite List.Forall_forall in Hall. apply Hall, in_or_app. right. exact Hy.
  - exact (IH Hs x y Hx Hy).
Qed.

Lemma sorted_filter {A : Type} (key : A -> Q) (p : A -> bool) (l : list A) :
  StronglySorted (key_ge key) l -> StronglySorted (key_ge key) (List.filter p l).
Proof.
  induction 1 as [| x l Hs IH Hall]; simpl; [constructor |].
  destruct (p x); [| exact IH].
  constructor; [exact IH |].
  rewrite List.Forall_forall in Hall |- *.
  intros y Hy. apply filter_In in Hy as [Hy _]. exact (Hall y Hy).
Qed.

Lemma eq_str_spec (v : value) (s : string) : eq_str v s = true <-> v = VStr s.
Proof.
  destruct v; simpl; try (split; [discriminate | discriminate]).
  rewrite String.eqb_eq. split; [intros ->; reflexivity | intros H; injection H; auto].
Qed.

(** Every tiered entry is counted under exactly one of the five tiers. *)
Lemma tier_partition (l : list scored) :
  Forall entry_tiered l ->
  length l =
  length (get_candidates_by_recommendation l "STRONGLY RECOMMEND")
  + length (get_candidates_by_recommendation l "RECOMMEND")
  + length (get_candidates_by_recommendation l "CONSIDER")
  + length (get_candidates_by_recommendation l "REJECT")
  + length (get_candidates_by_recommendation l "ERROR").
Proof.
  unfold get_candidates_by_recommendation.
  induction 1 as [| s l (tier & Hr & Htier) _ IH]; [reflexivity |].
  cbn [List.filter]. rewrite Hr.
  destruct Htier as [[-> _] | [[-> _] | [[-> _] | [[-> _] | [-> _]]]]];
    repeat match goal with
           | |- context [eq_str (VStr ?a) ?b] =>
               let v := eval vm_compute in (eq_str (VStr a) b) in
               change (eq_str (VStr a) b) with v
           end;
    cbn [length]; lia.
Qed.

Lemma sum_scores_bounds (xs : list Q) (a : Q) :
  Forall (fun x => (0 <= x <= 100)%Q) xs ->
  (a <= fold_left Qplus xs a)%Q /\
  (fold_left Qplus xs a <= a + 100 * inject_Z (Z.of_nat (length xs)))%Q.
Proof.
  intros H. revert a. induction H as [| x xs [Hx0 Hx1] _ IH]; intros a.
  - cbn [fold_left length]. change (inject_Z (Z.of_nat 0)) with 0%Q. split; lra.
  - cbn [fold_left length]. destruct (IH (a + x)%Q) as [Hlo Hhi].
    split; [lra |].
    rewrite Nat2Z.inj_succ, <- Z.add_1_r, inject_Z_plus.
    change (inject_Z 1) with 1%Q. lra.
Qed.

End RankingFacts.

Section RankingTheorems.

Variable float_of_str : string -> option Q.
Variable json_loads : string -> result (gmap string value).
Variable llm : world -> string -> result string.

(** X10. The top candidates of a batch result are a prefix of the
    ranking, whatever [top_n] is (a negative one drops that many from the
    end): no candidate left out scores higher than a candidate taken, and
    for a non-negative [top_n] the number taken is the smaller of [top_n]
    and the number of CVs. *)
Theorem top_candidates_dominate (jd : string) (cvs : list cv_data) (w : world) (top_n : Z) :
  exists out rest : list scored,
    fst (batch_score_cvs float_of_str json_loads llm jd cvs w) = Ok out /\
    out = (get_top_candidates out top_n ++ rest)%list /\
    (forall x y, In x (get_top_candidates out top_n) -> In y rest ->
                 (score y <= score x)%Q) /\
    length (get_top_candidates out top_n) =
      (if (0 <=? top_n)%Z then Nat.min (Z.to_nat top_n) (length cvs)
       else length cvs - Z.to_nat (- top_n)).
Proof.
  destruct (batch_score_cvs_ranked float_of_str json_loads llm jd cvs w)
    as (out & Hb & Hlen & Hsorted & _).
  unfold get_top_candidates.
  destruct (slice_to_prefix top_n out) as [rest Hrest].
  exists out, rest. rewrite Hb. split; [reflexivity |]. split; [exact Hrest |].
  split.
  - rewrite Hrest in Hsorted. intros x y Hx Hy.
    exact (sorted_app_ge score _ _ Hsorted x y Hx Hy).
  - rewrite slice_to_length, Hlen. reflexivity.
Qed.

(** X11. Filtering a batch result by recommendation keeps the ranking
    order and selects exactly the entries of that tier; and the five
    tiers, ERROR included, split the result: every entry is selected by
    exactly one of them. *)
Theorem candidates_by_recommendation_ranked (jd : string) (cvs : list cv_data)
    (w : world) (level : string) :
  exists out : list scored,
    fst (batch_score_cvs float_of_str json_loads llm jd cvs w) = Ok out /\
    StronglySorted (key_ge score) (get_candidates_by_recommendation out level) /\
    (forall s, In s (get_candidates_by_recommendation out level) <->
               In s out /\ recommendation s = VStr level) /\
    length cvs =
      length (get_candidates_by_recommendation out "STRONGLY RECOMMEND")
      + length (get_candidates_by_recommendation out "RECOMMEND")
      + length (get_candidates_by_recommendation out "CONSIDER")
      + length (get_candidates_by_recommendation out "REJECT")
      + length (get_candidates_by_recommendation out "ERROR").
Proof.
  destruct (batch_score_cvs_ranked float_of_str json_loads llm jd cvs w)
    as (out & Hb & Hlen & Hsorted & Htiered).
  exists out. rewrite Hb. split; [reflexivity |].
  split; [apply sorted_filter, Hsorted |].
  split.
  - intros s. unfold get_candidates_by_recommendation.
    rewrite filter_In, eq_str_spec. reflexivity.
  - rewrite <- Hlen. apply tier_partition, Htiered.
Qed.

Lemma entry_tiered_percent (s : scored) : entry_tiered s -> (0 <= score s <= 100)%Q.
Proof.
  intros (tier & _ & [[_ H] | H]).
  - rewrite H. lra.
  - exact (score_in_tier_percent _ _ H).
Qed.

(** X12. The statistics of the summary report of a batch result: there
    are none exactly for the empty batch; otherwise the total is the
    number of CVs, the average score lies in [0,100], and the four tier
    counts of the breakdown add up to the total less the ERROR entries,
    which the breakdown leaves out although the total and the average
    count them. *)
Theorem summary_statistics_of_batch (jd : string) (cvs : list cv_data) (w : world) :
  exists out : list scored,
    fst (batch_score_cvs float_of_str json_loads llm jd cvs w) = Ok out /\
    match summary_statistics out with
    | None => cvs = []
    | Some st =>
        cvs <> [] /\
        total st = length cvs /\
        (0 <= avg_score st <= 100)%Q /\
        strongly_recommend st + recommend st + consider st + reject st
        + length (get_candidates_by_recommendation out "ERROR") = total st
    end.
Proof.
  destruct (batch_score_cvs_ranked float_of_str json_loads llm jd cvs w)
    as (out & Hb & Hlen & _ & Htiered).
  exists out. rewrite Hb. split; [reflexivity |].
  unfold summary_statistics. destruct (length out =? 0)%nat eqn:E.
  - apply Nat.eqb_eq in E. rewrite E in Hlen. destruct cvs; [reflexivity | discriminate Hlen].
  - apply Nat.eqb_neq in E. cbn [total avg_score strongly_recommend recommend consider reject].
    split; [intros ->; simpl in Hlen; lia |].
    split; [exact Hlen |].
    split.
    + assert (Hscores : Forall (fun x => (0 <= x <= 100)%Q) (map score out)).
      { rewrite List.Forall_forall. intros x Hx. apply in_map_iff in Hx as (s & <- & Hs).
        rewrite List.Forall_forall in Htiered. apply entry_tiered_percent, Htiered, Hs. }
      destruct (sum_scores_bounds (map score out) 0 Hscores) as [Hlo Hhi].
      rewrite length_map in Hhi. unfold sum_scores.
      assert (Hn : (0 < inject_Z (Z.of_nat (length out)))%Q).
      { rewrite <- (Zlt_Qlt 0). lia. }
      split.
      * apply Qle_shift_div_l; [exact Hn | lra].
      * apply Qle_shift_div_r; [exact Hn | lra].
    + pose proof (tier_partition out Htiered) as Hp.
      unfold get_candidates_by_recommendation in Hp |- *. lia.
Qed.

End RankingTheorems.

(** ** The retry wrapper, for any parameters *)

Section RetryMore.
Import PyStr.

Lemma backoff_bounded (k : nat) (delay max_delay : Z) :
  (0 < delay <= max_delay)%Z ->
  Forall (fun d => (0 < d <= max_delay)%Z) (backoff k delay max_delay).
Proof.
  revert delay. induction k as [| k IH]; intros delay H; simpl; constructor.
  - exact H.
  - apply IH. lia.
Qed.

Lemma backoff_length (k : nat) (delay max_delay : Z) :
  length (backoff k delay max_delay) = k.
Proof.
  revert delay. induction k as [| k IH]; intros delay; simpl; [reflexivity |].
  rewrite IH. reflexivity.
Qed.

Lemma retry_loop_sleeps {A : Type} (max_retries : nat) (max_delay : Z) (func : M A) :
  keeps_sleep_log func ->
  forall (remaining attempt : nat) (delay : Z) (last : option exn) (w : world),
    attempt + remaining = max_retries ->
    exists k,
      k <= remaining - 1 /\
      slept (snd (retry_loop max_retries max_delay func remaining attempt delay last w))
      = (slept w ++ backoff k delay max_delay)%list.
Proof.
  intros Hkeep. induction remaining as [| r IH]; intros attempt delay last w Hinv.
  - exists 0. simpl. rewrite app_nil_r. split; [lia | reflexivity].
  - simpl. pose proof (Hkeep w) as Hw. destruct (func w) as [[a | e] w'] eqn:Ef.
    + exists 0. simpl in *. rewrite app_nil_r. split; [lia | exact Hw].
    + simpl in Hw. destruct (is_rate_limit (lower (str e))).
      * destruct (Z.of_nat attempt <? Z.of_nat max_retries - 1)%Z eqn:E.
        -- apply Z.ltb_lt in E.
           destruct (IH (S attempt) (Z.min (delay * 2) max_delay) (Some e) (sleep delay w'))
             as (k & Hk & Hs); [lia |].
           exists (S k). split; [lia |].
           rewrite Hs. simpl. rewrite Hw, <- app_assoc. reflexivity.
        -- exists 0. simpl. rewrite app_nil_r. split; [lia | exact Hw].
      * exists 0. simpl. rewrite app_nil_r. split; [lia | exact Hw].
Qed.

(** X13. For any number of retries and any delays, the sleeps of the
    wrapper are an initial part of the backoff sequence that starts at
    the initial delay and doubles up to the cap, at most one sleep less
    than the number of attempts allowed; with a positive initial delay
    not above the cap, no sleep is longer than the cap. *)
Theorem retry_sleeps_follow_backoff {A : Type} (max_retries : nat)
    (initial_delay max_delay : Z) (func : M A) (w : world) :
  keeps_sleep_log func ->
  exists k,
    k <= max_retries - 1 /\
    slept (snd (retry_with_exponential_backoff max_retries initial_delay max_delay func w))
    = (slept w ++ backoff k initial_delay max_delay)%list /\
    ((0 < initial_delay <= max_delay)%Z ->
     Forall (fun d => (0 < d <= max_delay)%Z) (backoff k initial_delay max_delay)).
Proof.
  intros Hkeep. unfold retry_with_exponential_backoff.
  destruct (retry_loop_sleeps max_retries max_delay func Hkeep
              max_retries 0 initial_delay None w) as (k & Hk & Hs); [lia |].
  exists k. split; [exact Hk |]. split; [exact Hs |].
  intros Hd. apply backoff_bounded, Hd.
Qed.

Lemma retry_loop_again {A : Type} (max_retries : nat) (max_delay : Z) (func : M A)
    (r attempt : nat) (delay : Z) (last : option exn) (w w' : world) (e : exn) :
  func w = (Raise e, w') -> rate_limited e ->
  (Z.of_nat attempt < Z.of_nat max_retries - 1)%Z ->
  retry_loop max_retries max_delay func (S r) attempt delay last w =
  retry_loop max_retries max_delay func r (S attempt) (Z.min (delay * 2) max_delay)
    (Some e) (sleep delay w').
Proof.
  intros Hf Hrate Hlt. cbn [retry_loop]. rewrite Hf, Hrate.
  apply Z.ltb_lt in Hlt. rewrite Hlt. reflexivity.
Qed.

Lemma retry_loop_last {A : Type} (max_retries : nat) (max_delay : Z) (func : M A)
    (r attempt : nat) (delay : Z) (last : option exn) (w w' : world) (e : exn) :
  func w = (Raise e, w') -> rate_limited e ->
  (Z.of_nat max_retries - 1 <= Z.of_nat attempt)%Z ->
  retry_loop max_retries max_delay func (S r) attempt delay last w =
  (Raise (Exception (max_retries_message max_retries e)), w').
Proof.
  intros Hf Hrate Hge. cbn [retry_loop]. rewrite Hf, Hrate.
  apply Z.ltb_ge in Hge. rewrite Hge. reflexivity.
Qed.

Lemma retry_loop_exhausted (max_retries : nat) (max_delay : Z) (e : exn) :
  rate_limited e ->
  forall (remaining attempt : nat) (delay : Z) (last : option exn) (w : world),
    attempt + S remaining = max_retries ->
    retry_loop max_retries max_delay (always_raises e) (S remaining) attempt delay last w
    = (Raise (Exception (max_retries_message max_retries e)),
       {| calls := calls w ++ repeat "call" (S remaining);
          slept := slept w ++ backoff remaining delay max_delay |}).
Proof.
  intros Hrate. induction remaining as [| r IH]; intros attempt delay last w Hinv.
  - rewrite (retry_loop_last max_retries max_delay (always_raises e) 0 attempt delay last
               w _ e eq_refl Hrate) by lia.
    simpl. rewrite app_nil_r. reflexivity.
  - rewrite (retry_loop_again max_retries max_delay (always_raises e) (S r) attempt delay
               last w _ e eq_refl Hrate) by lia.
    rewrite IH by lia. unfold sleep. cbn [calls slept backoff].
    f_equal. f_equal.
    + rewrite <- app_assoc. reflexivity.
    + rewrite <- app_assoc. reflexivity.
Qed.


End RetryMore.

Lemma retry_sleeps_follow_backoff_witness :
  exists k,
    k <= 7 - 1 /\
    slept (snd (retry_with_exponential_backoff 7 2 30 always_rate_limited Run.start))
    = ([] ++ backoff k 2 30)%list /\
    ((0 < 2 <= 30)%Z -> Forall (fun d => (0 < d <= 30)%Z) (backoff k 2 30)).
Proof.
  apply (retry_sleeps_follow_backoff 7 2 30 always_rate_limited Run.start).
  intros w. reflexivity.
Defined.


(** ** The fallback name extractor *)

Section NameMore.
Import PyStr CVProcessor NameSpec.

Lemma lstrip_clean (s : string) : starts_clean (lstrip s).
Proof.
  induction s as [| c s IH]; simpl; [exact I |].
  destruct (is_space c) eqn:E; [exact IH | exact E].
Qed.

Lemma lstrip_id (s : string) : starts_clean s -> lstrip s = s.
Proof.
  destruct s as [| c s]; simpl; [reflexivity |]. intros ->. reflexivity.
Qed.

Lemma rstrip_clean (s : string) : starts_clean s -> starts_clean (rstrip s).
Proof.
  destruct s as [| c s]; simpl; [intros _; exact I |].
  intros E. rewrite E. simpl. exact E.
Qed.

Lemma rstrip_idem (s : string) : rstrip (rstrip s) = rstrip s.
Proof.
  induction s as [| c s IH]; [reflexivity |].
  cbn [rstrip]. destruct (is_space c && is_empty (rstrip s)) eqn:E; [reflexivity |].
  cbn [rstrip]. rewrite IH, E. reflexivity.
Qed.

(** Stripping twice is stripping once. *)
Lemma strip_idem (s : string) : strip (strip s) = strip s.
Proof.
  unfold strip. rewrite (lstrip_id (rstrip (lstrip s))).
  - apply rstrip_idem.
  - apply rstrip_clean, lstrip_clean.
Qed.

Lemma lstrip_no_char (c : ascii) (s : string) : no_char c s -> no_char c (lstrip s).
Proof.
  induction s as [| x s IH]; intros H; [exact H |].
  simpl. destruct (is_space x); [| exact H].
  apply no_char_cons in H as [_ H]. exact (IH H).
Qed.

Lemma rstrip_no_char (c : ascii) (s : string) : no_char c s -> no_char c (rstrip s).
Proof.
  induction s as [| x s IH]; intros H; [exact H |].
  apply no_char_cons in H as [Hx H]. cbn [rstrip].
  destruct (is_space x && is_empty (rstrip s)); [reflexivity |].
  apply no_char_cons. split; [exact Hx | exact (IH H)].
Qed.

Lemma strip_no_char (c : ascii) (s : string) : no_char c s -> no_char c (strip s).
Proof. intros H. apply rstrip_no_char, lstrip_no_char, H. Qed.

(** The pieces of a split do not contain the separator. *)
Lemma split_char_no_sep (sep : ascii) (s : string) :
  Forall (no_char sep) (split_char sep s).
Proof.
  induction s as [| c s IH]; simpl; [constructor; [reflexivity | constructor] |].
  destruct (Ascii.eqb c sep) eqn:E.
  - constructor; [reflexivity | exact IH].
  - destruct (split_char sep s) as [| h t]; [constructor; [| constructor] |].
    + apply no_char_cons. split; [exact E | reflexivity].
    + apply Forall_cons in IH as [Hh Ht]. constructor; [| exact Ht].
      apply no_char_cons. split; [exact E | exact Hh].
Qed.

(** A text without the separator is its own single piece. *)
Lemma split_char_single (sep : ascii) (s : string) :
  no_char sep s -> split_char sep s = [s].
Proof.
  induction s as [| c s IH]; intros H; [reflexivity |].
  apply no_char_cons in H as [Hc H]. simpl. rewrite Hc, (IH H). reflexivity.
Qed.

Lemma map_chars_length (f : ascii -> ascii) (s : string) :
  String.length (map_chars f s) = String.length s.
Proof.
  induction s as [| c s IH]; simpl; [reflexivity | rewrite IH; reflexivity].
Qed.

Lemma map_chars_empty (f : ascii -> ascii) (s : string) :
  is_empty (map_chars f s) = is_empty s.
Proof. destruct s; reflexivity. Qed.

(** Where the returned name comes from. *)
Lemma extract_candidate_name_origin (text : string) :
  let r := extract_candidate_name text in
  (exists line, In line (take 5 (split_char nl (strip text))) /\
                r = strip line /\ name_line r = true) \/
  (exists line, In line (take 10 (split_char nl (strip text))) /\
                r = strip line /\ short_line r = true) \/
  (r = "Unknown Candidate" /\
   find_name (take 5 (split_char nl (strip text))) = None /\
   find_short (take 10 (split_char nl (strip text))) = None).
Proof.
  unfold extract_candidate_name. cbv zeta.
  destruct (find_name (take 5 (split_char nl (strip text)))) as [r |] eqn:En.
  - left. rewrite find_name_find in En. apply find_some in En as [Hin Hname].
    apply in_map_iff in Hin as (line & <- & Hin). exists line. auto.
  - destruct (find_short (take 10 (split_char nl (strip text)))) as [r |] eqn:Es.
    + right. left. rewrite find_short_find in Es. apply find_some in Es as [Hin Hshort].
      apply in_map_iff in Hin as (line & <- & Hin). exists line. auto.
    + right. right. auto.
Qed.

Lemma in_take {A : Type} (n : nat) (l : list A) (x : A) : In x (take n l) -> In x l.
Proof.
  revert l. induction n as [| n IH]; intros [| y l] H; simpl in H; try contradiction.
  destruct H as [-> | H]; [left; reflexivity | right; exact (IH l H)].
Qed.

Lemma stripped_line_clean (text line : string) :
  In line (split_char nl (strip text)) ->
  strip (strip line) = strip line /\ no_char nl (strip line).
Proof.
  intros Hin. split; [apply strip_idem |].
  apply strip_no_char.
  pose proof (split_char_no_sep nl (strip text)) as H.
  rewrite List.Forall_forall in H. exact (H line Hin).
Qed.

Lemma name_line_not_empty (r : string) : name_line r = true -> is_empty r = false.
Proof.
  unfold name_line. intros H. apply andb_prop in H as [H _].
  apply negb_true_iff, orb_false_iff in H as [H _]. exact H.
Qed.

Lemma short_line_not_empty (r : string) : short_line r = true -> is_empty r = false.
Proof.
  unfold short_line. intros H. apply andb_prop in H as [H _].
  apply negb_true_iff in H. exact H.
Qed.

(** The name extracted from a one-line text that is already clean. *)
Lemma extract_candidate_name_single (r : string) :
  strip r = r -> no_char nl r ->
  extract_candidate_name r =
  if name_line r then r else if short_line r then r else "Unknown Candidate".
Proof.
  intros Hstrip Hnl. unfold extract_candidate_name. cbv zeta.
  rewrite Hstrip, (split_char_single nl r Hnl).
  change (take 5 [r]) with [r]. change (take 10 [r]) with [r].
  rewrite find_name_find, find_short_find. cbn [map List.find]. rewrite Hstrip.
  destruct (name_line r); [reflexivity |].
  destruct (short_line r); reflexivity.
Qed.



Lemma lstrip_blank (s : string) : all_chars is_space s = true -> lstrip s = EmptyString.
Proof.
  induction s as [| c s IH]; [reflexivity |].
  simpl. intros H. apply andb_prop in H as [Hc H]. rewrite Hc. exact (IH H).
Qed.

(** X17. A text of whitespace only, the empty text included, has no
    name: the extractor returns Unknown Candidate. *)
Theorem extract_candidate_name_blank (text : string) :
  all_chars is_space text = true ->
  extract_candidate_name text = "Unknown Candidate".
Proof.
  intros H. unfold extract_candidate_name, strip.
  rewrite (lstrip_blank text H). reflexivity.
Qed.

(** X18. The stoplist does not guard the fallback: for a one-line text
    that is a stoplist header in any letter case, with or without
    whitespace around it, the header itself is returned as the name. *)
Theorem extract_candidate_name_header_only (text : string) :
  no_char nl text ->
  in_list (upper (strip text)) HEADERS = true ->
  extract_candidate_name text = strip text.
Proof.
  intros Hnl Hheader.
  assert (Hs : strip (strip text) = strip text) by apply strip_idem.
  assert (Hn : no_char nl (strip text)) by (apply strip_no_char, Hnl).
  unfold extract_candidate_name. cbv zeta.
  rewrite (split_char_single nl _ Hn).
  change (take 5 [strip text]) with [strip text].
  change (take 10 [strip text]) with [strip text].
  cbn [find_name find_short]. rewrite Hs, Hheader, orb_true_r.
  assert (Hlen : (String.length (strip text) <? 50)%nat = true
                 /\ is_empty (strip text) = false).
  { unfold upper in Hheader.
    rewrite <- (map_chars_length upper_char (strip text)).
    rewrite <- (map_chars_empty upper_char (strip text)).
    unfold in_list, HEADERS in Hheader. cbn [existsb] in Hheader.
    repeat (apply orb_prop in Hheader as [Hheader | Hheader];
            [apply String.eqb_eq in Hheader; rewrite Hheader; split; reflexivity |]).
    discriminate Hheader. }
  destruct Hlen as [Hlen Hne]. rewrite Hlen, Hne. reflexivity.
Qed.

End NameMore.

Lemma extract_candidate_name_blank_witness :
  CVProcessor.extract_candidate_name "   " = "Unknown Candidate".
Proof. apply (extract_candidate_name_blank "   "). reflexivity. Defined.

Lemma extract_candidate_name_header_only_witness :
  CVProcessor.extract_candidate_name "  Curriculum Vitae " = "Curriculum Vitae".
Proof.
  apply (extract_candidate_name_header_only "  Curriculum Vitae "); reflexivity.
Defined.

(** ** The sections of a CV *)

Section SectionsFacts.
Import PyStr Sections SectionsSpec.

Variable findall_email : string -> list string.
Variable findall_phone : string -> list string.

Lemma string_length_app (a b : string) :
  String.length (a ++ b) = String.length a + String.length b.
Proof.
  induction a as [| c a IH]; [reflexivity |].
  rewrite append_cons. simpl. rewrite IH. reflexivity.
Qed.

Lemma detect_header (current line : string) :
  (is_header line = false /\ detect current line = current) \/
  (is_header line = true /\
   (detect current line = "education" \/ detect current line = "experience"
    \/ detect current line = "skills")).
Proof.
  unfold is_header, detect. cbv zeta.
  destruct (any_in education_keywords (lower line)); [right; split; auto |].
  destruct (any_in experience_keywords (lower line)); [right; split; auto |].
  destruct (any_in skills_keywords (lower line)); [right; split; auto |].
  left. split; reflexivity.
Qed.

Lemma detect_line_section (current line : string) :
  line_section current -> line_section (detect current line).
Proof.
  intros H. unfold line_section.
  destruct (detect_header current line) as [[_ ->] | [_ [-> | [-> | ->]]]]; auto.
Qed.

(** Adding a line to one of the four sections files its characters and
    a line break. *)
Lemma filed_insert (sections : gmap string string) (k line : string) :
  line_section k ->
  filed (<[k := (sections !!! k) ++ line ++ String nl EmptyString]> sections)
  = filed sections + String.length line + 1.
Proof.
  intros Hk. unfold filed.
  assert (Hlen : String.length ((sections !!! k) ++ line ++ String nl EmptyString)
                 = String.length (sections !!! k) + String.length line + 1).
  { rewrite !string_length_app. simpl. lia. }
  destruct Hk as [-> | [-> | [-> | ->]]];
    rewrite lookup_total_insert_eq, !lookup_total_insert_ne by discriminate;
    rewrite Hlen; lia.
Qed.

Lemma sections_loop_filed (lines : list string) :
  forall (current : string) (sections : gmap string string),
    line_section current ->
    filed (sections_loop lines current sections)
    = filed sections + list_sum (map (fun l => String.length l + 1) lines).
Proof.
  induction lines as [| line rest IH]; intros current sections Hc.
  - simpl. lia.
  - cbn [sections_loop]. cbv zeta.
    rewrite IH by (apply detect_line_section, Hc).
    rewrite filed_insert by (apply detect_line_section, Hc).
    unfold list_sum. cbn [map fold_right]. lia.
Qed.

(** The pieces of a split and the separators between them make up the
    text. *)
Lemma split_char_lengths (sep : ascii) (s : string) :
  list_sum (map (fun l => String.length l + 1) (split_char sep s)) = String.length s + 1.
Proof.
  induction s as [| c s IH]; [reflexivity |].
  cbn [split_char]. unfold list_sum in *. destruct (Ascii.eqb c sep).
  - cbn [map fold_right String.length]. rewrite IH. lia.
  - destruct (split_char sep s) as [| h t].
    + cbn [map fold_right String.length] in *. lia.
    + cbn [map fold_right String.length] in *. lia.
Qed.

Lemma sections_loop_personal (lines : list string) :
  forall (current : string) (sections : gmap string string),
    line_section current ->
    sections_loop lines current sections !! "personal_info" = sections !! "personal_info".
Proof.
  induction lines as [| line rest IH]; intros current sections Hc; [reflexivity |].
  cbn [sections_loop]. cbv zeta.
  rewrite IH by (apply detect_line_section, Hc).
  apply lookup_insert_ne.
  destruct (detect_line_section current line Hc) as [-> | [-> | [-> | ->]]]; discriminate.
Qed.

(** X19. No character of the text is lost or doubled by the sectioning:
    the education, experience, skills and other sections together hold
    as many characters as the text has, plus one for the line break added
    after its last line. *)
Theorem extract_cv_sections_conserves (text : string) :
  filed (extract_cv_sections findall_email findall_phone text)
  = String.length text + 1.
Proof.
  unfold extract_cv_sections. cbv zeta.
  set (start := <["personal_info" := EmptyString]>
                (<["education" := EmptyString]>
                (<["experience" := EmptyString]>
                (<["skills" := EmptyString]>
                (<["other" := EmptyString]> (∅ : gmap string string)))))).
  assert (Hloop : filed (sections_loop (split_char nl text) "other" start)
                  = String.length text + 1).
  { rewrite sections_loop_filed by (right; right; right; reflexivity).
    rewrite split_char_lengths. reflexivity. }
  destruct (negb (is_nil (findall_email text)) || negb (is_nil (findall_phone text)));
    [| exact Hloop].
  unfold filed in *. rewrite !lookup_total_insert_ne by discriminate. exact Hloop.
Qed.

Lemma sections_loop_other_frozen (lines : list string) :
  forall (current : string) (sections : gmap string string),
    current <> "other" -> line_section current ->
    sections_loop lines current sections !!! "other" = sections !!! "other".
Proof.
  induction lines as [| line rest IH]; intros current sections Hne Hc; [reflexivity |].
  cbn [sections_loop]. cbv zeta.
  assert (Hd : detect current line <> "other").
  { destruct (detect_header current line) as [[_ ->] | [_ [-> | [-> | ->]]]];
      [exact Hne | discriminate | discriminate | discriminate]. }
  rewrite IH by (try exact Hd; apply detect_line_section, Hc).
  apply lookup_total_insert_ne. exact Hd.
Qed.

Lemma sections_loop_other (lines : list string) :
  forall (sections : gmap string string),
    sections_loop lines "other" sections !!! "other"
    = (sections !!! "other") ++ preamble lines.
Proof.
  induction lines as [| line rest IH]; intros sections.
  - simpl. induction (sections !!! "other") as [| c s IHs]; [reflexivity |].
    rewrite append_cons, <- IHs. reflexivity.
  - cbn [sections_loop preamble]. cbv zeta.
    destruct (detect_header "other" line) as [[Hh Hd] | [Hh Hd]]; rewrite Hh.
    + rewrite Hd, IH, lookup_total_insert_eq, !append_assoc. reflexivity.
    + assert (Hne : detect "other" line <> "other").
      { destruct Hd as [-> | [-> | ->]]; discriminate. }
      rewrite sections_loop_other_frozen;
        [| exact Hne | apply detect_line_section; right; right; right; reflexivity].
      rewrite lookup_total_insert_ne by exact Hne.
      induction (sections !!! "other") as [| c s IHs]; [reflexivity |].
      rewrite append_cons, <- IHs. reflexivity.
Qed.

(** X20. The other section is the preamble of the CV and nothing else:
    it holds the lines before the first line with a section keyword, and
    no later line is ever added to it, whatever follows. *)
Theorem extract_cv_sections_other_is_preamble (text : string) :
  extract_cv_sections findall_email findall_phone text !!! "other"
  = preamble (split_char nl text).
Proof.
  unfold extract_cv_sections. cbv zeta.
  set (start := <["personal_info" := EmptyString]>
                (<["education" := EmptyString]>
                (<["experience" := EmptyString]>
                (<["skills" := EmptyString]>
                (<["other" := EmptyString]> (∅ : gmap string string)))))).
  assert (Hloop : sections_loop (split_char nl text) "other" start !!! "other"
                  = preamble (split_char nl text)).
  { rewrite sections_loop_other. reflexivity. }
  destruct (negb (is_nil (findall_email text)) || negb (is_nil (findall_phone text)));
    [| exact Hloop].
  rewrite lookup_total_insert_ne by discriminate. exact Hloop.
Qed.

End SectionsFacts.

Example extract_cv_sections_sample :
  let s := Sections.extract_cv_sections (fun _ => []) (fun _ => [])
             (PyStr.join_lines ["Jane Doe"; "EDUCATION"; "BSc"; "Skills: Rocq"]) in
  s !!! "other" = PyStr.join_lines ["Jane Doe"; EmptyString] /\
  s !!! "education" = PyStr.join_lines ["EDUCATION"; "BSc"; EmptyString] /\
  s !!! "skills" = PyStr.join_lines ["Skills: Rocq"; EmptyString] /\
  s !!! "personal_info" = EmptyString.
Proof. vm_compute. repeat split. Qed.

(** ** The prompts *)

Section PromptFacts.
Import PyStr PromptSpec.

Lemma append_nil_r (s : string) : s ++ EmptyString = s.
Proof.
  induction s as [| c s IH]; [reflexivity |]. rewrite append_cons, IH. reflexivity.
Qed.

Lemma starts_with_app (x r : string) : starts_with x (x ++ r) = true.
Proof.
  induction x as [| c x IH]; [reflexivity |].
  rewrite append_cons. simpl. rewrite Ascii.eqb_refl. exact IH.
Qed.

Lemma contains_start (x h : string) : starts_with x h = true -> contains x h = true.
Proof. intros H. destruct h; simpl; rewrite H; reflexivity. Qed.

Lemma contains_cons (x h : string) (c : ascii) :
  contains x h = true -> contains x (String c h) = true.
Proof. intros H. cbn [contains]. rewrite H. apply orb_true_r. Qed.

Lemma contains_app_l (x a h : string) : contains x h = true -> contains x (a ++ h) = true.
Proof.
  intros H. induction a as [| c a IH]; [exact H |].
  rewrite append_cons. apply contains_cons, IH.
Qed.

Lemma piece_eqb_eq (p q : piece) : piece_eqb p q = true -> p = q.
Proof.
  destruct p, q; simpl; try discriminate.
  - intros H. apply Ascii.eqb_eq in H as ->. reflexivity.
  - intros H. apply String.eqb_eq in H as ->. reflexivity.
Qed.

Lemma starts_with_pieces_split (seg ps : list piece) :
  starts_with_pieces seg ps = true -> exists ps2, ps = (seg ++ ps2)%list.
Proof.
  revert ps. induction seg as [| p seg IH]; intros ps H.
  - exists ps. reflexivity.
  - destruct ps as [| q ps]; [discriminate H |].
    simpl in H. apply andb_prop in H as [Hp H].
    apply piece_eqb_eq in Hp as ->. destruct (IH ps H) as [ps2 ->].
    exists ps2. reflexivity.
Qed.

Lemma has_segment_split (seg ps : list piece) :
  has_segment seg ps = true -> exists ps1 ps2, ps = (ps1 ++ seg ++ ps2)%list.
Proof.
  induction ps as [| q ps IH]; intros H.
  - simpl in H. rewrite orb_false_r in H.
    destruct (starts_with_pieces_split seg [] H) as [ps2 Hps]. exists [], ps2. exact Hps.
  - cbn [has_segment] in H. apply orb_prop in H as [H | H].
    + destruct (starts_with_pieces_split seg (q :: ps) H) as [ps2 Hps].
      exists [], ps2. exact Hps.
    + destruct (IH H) as (ps1 & ps2 & ->). exists (q :: ps1), ps2. reflexivity.
Qed.

Lemma render_app (a b : list piece) (kwargs : string -> option string) (p : string) :
  render (a ++ b) kwargs = Some p ->
  exists x y, render a kwargs = Some x /\ render b kwargs = Some y /\ p = x ++ y.
Proof.
  revert p. induction a as [| q a IH]; intros p H.
  - exists EmptyString, p. auto.
  - destruct q as [c | name]; simpl in H |- *.
    + destruct (render (a ++ b) kwargs) as [r |] eqn:E; [| discriminate H].
      injection H as <-. destruct (IH r eq_refl) as (x & y & -> & Hy & ->).
      exists (String c x), y. auto.
    + destruct (kwargs name) as [v |]; [| discriminate H]. simpl in H |- *.
      destruct (render (a ++ b) kwargs) as [r |] eqn:E; [| discriminate H].
      injection H as <-. destruct (IH r eq_refl) as (x & y & -> & Hy & ->).
      exists (v ++ x), y. simpl. rewrite append_assoc. auto.
Qed.

(** What a run of pieces renders to is part of the rendered template. *)
Lemma render_segment (seg ps : list piece) (kwargs : string -> option string) (p : string) :
  has_segment seg ps = true -> render ps kwargs = Some p ->
  exists x, render seg kwargs = Some x /\ contains x p = true.
Proof.
  intros Hseg Hp. destruct (has_segment_split seg ps Hseg) as (ps1 & ps2 & ->).
  destruct (render_app _ _ _ _ Hp) as (x1 & r & _ & Hr & ->).
  destruct (render_app _ _ _ _ Hr) as (x & x2 & Hx & _ & ->).
  exists x. split; [exact Hx |].
  apply contains_app_l, contains_start, starts_with_app.
Qed.

Lemma render_lits (s : string) (kwargs : string -> option string) :
  render (lits s) kwargs = Some s.
Proof.
  induction s as [| c s IH]; [reflexivity |]. simpl. rewrite IH. reflexivity.
Qed.

Lemma scoring_prompt_segments :
  match parse_format SCORING_PROMPT None with
  | Some ps =>
      has_segment [Field "job_description"] ps && has_segment [Field "cv_content"] ps
      && has_segment candidate_label ps
  | None => false
  end = true.
Proof. vm_compute. reflexivity. Qed.

(** X21. The scoring prompt is built for every input, and it carries the
    job description and the CV text in full, as they are (no truncation,
    and braces in them are not read as fields), under the header
    CANDIDATE #n CV: for the candidate number n. *)
Theorem scoring_prompt_carries_inputs (jd cv : string) (n : nat) :
  exists prompt,
    scoring_prompt jd cv n = Some prompt /\
    contains jd prompt = true /\
    contains cv prompt = true /\
    contains ("CANDIDATE #" ++ Py.str_of_nat n ++ " CV:") prompt = true.
Proof.
  destruct (scoring_prompt_some jd cv n) as [prompt Hp]. exists prompt.
  split; [exact Hp |].
  unfold scoring_prompt, format in Hp. pose proof scoring_prompt_segments as Hseg.
  destruct (parse_format SCORING_PROMPT None) as [ps |]; [| discriminate Hseg].
  simpl in Hp. apply andb_prop in Hseg as [Hseg Hlabel].
  apply andb_prop in Hseg as [Hjd Hcv].
  repeat split.
  - destruct (render_segment _ _ _ _ Hjd Hp) as (x & Hx & Hc).
    simpl in Hx. injection Hx as <-. rewrite append_nil_r in Hc. exact Hc.
  - destruct (render_segment _ _ _ _ Hcv Hp) as (x & Hx & Hc).
    simpl in Hx. injection Hx as <-. rewrite append_nil_r in Hc. exact Hc.
  - destruct (render_segment _ _ _ _ Hlabel Hp) as (x & Hx & Hc).
    unfold candidate_label in Hx.
    destruct (render_app _ _ _ _ Hx) as (a & b & Ha & Hb & ->).
    rewrite render_lits in Ha. injection Ha as <-.
    change ([Field "candidate_number"] ++ lits " CV:")%list
      with (Field "candidate_number" :: lits " CV:") in Hb.
    cbn [render] in Hb. rewrite render_lits in Hb.
    unfold scoring_kwargs in Hb. simpl in Hb. injection Hb as <-. exact Hc.
Qed.

End PromptFacts.

(** ** Profile extraction and candidate numbering *)

Section ProfileFacts.
Import PyStr PromptSpec Profile.

Variable search_email : string -> option string.
Variable search_phone : string -> option string.
Variable json_loads : string -> result (gmap string value).
Variable llm : world -> string -> result string.

Lemma render_only_cv_text (ps : list piece) (text : string) :
  only_cv_text ps = true -> is_Some (render ps (parsing_kwargs text)).
Proof.
  induction ps as [| p ps IH]; intros H; [eexists; reflexivity |].
  simpl in H. apply andb_prop in H as [Hp H]. destruct (IH H) as [r Hr].
  destruct p as [c | name]; cbn [render].
  - rewrite Hr. eexists. reflexivity.
  - assert (Hk : parsing_kwargs text name = Some text).
    { unfold parsing_kwargs. rewrite Hp. reflexivity. }
    rewrite Hk, Hr. eexists. reflexivity.
Qed.

Lemma parsing_prompt_fields :
  match parse_format CV_PARSING_PROMPT None with
  | Some ps => only_cv_text ps && has_segment [Field "cv_text"] ps
  | None => false
  end = true.
Proof. vm_compute. reflexivity. Qed.

(** Formatting the extraction prompt never raises, and the prompt
    carries the CV text in full. *)
Lemma parsing_prompt_some (text : string) :
  exists prompt,
    format CV_PARSING_PROMPT (parsing_kwargs text) = Some prompt /\
    contains text prompt = true.
Proof.
  unfold format. pose proof parsing_prompt_fields as H.
  destruct (parse_format CV_PARSING_PROMPT None) as [ps |]; [| discriminate H].
  apply andb_prop in H as [Hfields Hseg]. simpl.
  destruct (render_only_cv_text ps text Hfields) as [prompt Hp].
  exists prompt. split; [exact Hp |].
  destruct (render_segment _ _ _ _ Hseg Hp) as (x & Hx & Hc).
  simpl in Hx. unfold parsing_kwargs in Hx. simpl in Hx. injection Hx as <-.
  rewrite append_nil_r in Hc. exact Hc.
Qed.

(** X22. Profile extraction never raises and never retries: whatever the
    LLM does, one call is made with a prompt that carries the whole CV
    text, nothing is slept, and a profile is returned: the decoded
    object as it is when the answer has one, and otherwise (exception,
    no JSON object, undecodable JSON) the fallback profile, whose name is
    the one the name extractor finds. *)
Theorem extract_candidate_info_total (text : string) (w : world) :
  exists prompt,
    format CV_PARSING_PROMPT (parsing_kwargs text) = Some prompt /\
    contains text prompt = true /\
    extract_candidate_info_with_llm search_email search_phone json_loads llm text w
    = (Ok (profile_for json_loads
             (_fallback_extraction search_email search_phone text) (llm w prompt)),
       {| calls := calls w ++ [prompt]; slept := slept w |}) /\
    _fallback_extraction search_email search_phone text !! "name"
    = Some (VStr (CVProcessor.extract_candidate_name text)).
Proof.
  destruct (parsing_prompt_some text) as (prompt & Hp & Hc).
  exists prompt. split; [exact Hp |]. split; [exact Hc |].
  split; [| reflexivity].
  assert (Hbody : extract_candidate_info_body search_email search_phone json_loads llm
                    text w
                  = (Ok (profile_for json_loads
                           (_fallback_extraction search_email search_phone text)
                           (llm w prompt)),
                     {| calls := calls w ++ [prompt]; slept := slept w |})).
  { unfold extract_candidate_info_body, profile_for. rewrite Hp.
    destruct (llm w prompt) as [content | e]; [| reflexivity].
    destruct (search_braces content) as [m |]; [| reflexivity].
    destruct (json_loads m); reflexivity. }
  unfold extract_candidate_info_with_llm, retry_with_exponential_backoff.
  cbn [retry_loop]. rewrite Hbody. reflexivity.
Qed.

End ProfileFacts.

Section NumberingMore.
Import Analysis Upload.

Variable extract_and_save : uploaded_file -> result (string * nat).

Lemma imap_map {A B C : Type} (l : list A) :
  forall (g : nat -> A -> B) (f : B -> C) (h : A -> C),
    (forall i x, f (g i x) = h x) -> map f (imap g l) = map h l.
Proof.
  induction l as [| x l IH]; intros g f h Hg; simpl; [reflexivity |].
  rewrite Hg. f_equal. apply IH. intros i y. unfold compose. apply Hg.
Qed.

Lemma extract_step_names (files : list uploaded_file) :
  map raw_file_name (extract_step extract_and_save files)
  = map name (List.filter (extracted extract_and_save) files).
Proof.
  induction files as [| f files IH]; [reflexivity |].
  cbn [extract_step List.filter]. unfold extracted at 1.
  destruct (extract_and_save f) as [[text id] | e]; [| exact IH].
  cbn [map raw_file_name]. rewrite IH. reflexivity.
Qed.

(** X23. Candidates are numbered 1, 2, 3, ... without gaps, in upload
    order, over the files that could be extracted and saved: a file that
    fails gets no number and does not use one up. *)
Theorem candidates_numbered_in_upload_order (files : list uploaded_file) :
  let parsed := number_candidates (extract_step extract_and_save files) in
  map candidate_number parsed = seq 1 (length parsed) /\
  map file_name parsed = map name (List.filter (extracted extract_and_save) files) /\
  length parsed = length (List.filter (extracted extract_and_save) files).
Proof.
  cbv zeta. unfold number_candidates.
  assert (Hnames : map file_name
                     (imap (fun i cv => {| file_name := raw_file_name cv;
                                           cv_id := raw_cv_id cv;
                                           raw_text := raw_text_of cv;
                                           candidate_number := i + 1 |})
                        (extract_step extract_and_save files))
                   = map name (List.filter (extracted extract_and_save) files)).
  { rewrite (imap_map _ _ file_name raw_file_name) by reflexivity.
    apply extract_step_names. }
  split; [| split; [exact Hnames |]].
  - rewrite length_imap.
    apply (imap_candidate_numbers (extract_step extract_and_save files) 1).
    intros i cv. simpl. lia.
  - rewrite <- (length_map file_name), Hnames, length_map. reflexivity.
Qed.

End NumberingMore.
